(** * Lichook: the move-orchestration pipeline of [chesshook.user.js]

    A shallow embedding of the userscript's core: FEN completion, the
    WebSocket message handler (position tracker), the Stockfish message
    handler and [calculateMove] (engine adapter), [sendMove] and
    [sendMoveWithDelay] (dispatch scheduler) and the delay inputs of the
    settings panel.  The script's module-level [let] variables become the
    fields of one [State] record that every handler takes and returns;
    what the handlers do to the outside world (commands posted to the
    engine, frames written to the socket, timers armed, lines logged) is
    recorded in that record as well. *)

From Stdlib Require Import ZArith List String Ascii Bool Lia DecimalString.
Import ListNotations.
Open Scope string_scope.
Open Scope Z_scope.

(** ** JavaScript primitives used by the script *)

Module JsString.

Definition is_space (c : ascii) : bool := Ascii.eqb c " "%char.

(** [s.split(' ')]: cut at every single space character.  The result is
    never empty ([''.split(' ')] is [['']]) and two adjacent spaces give
    an empty field. *)
Fixpoint split (s : string) : list string :=
  match s with
  | EmptyString => [ "" ]
  | String c r =>
      if is_space c then "" :: split r
      else match split r with
           | h :: t => String c h :: t
           | [] => [ String c "" ]
           end
  end.

(** [parts.join(' ')]. *)
Fixpoint join (parts : list string) : string :=
  match parts with
  | [] => ""
  | [ x ] => x
  | x :: rest => x ++ " " ++ join rest
  end.

(** [s.includes(sub)]. *)
Fixpoint includes (sub s : string) : bool :=
  String.prefix sub s
  || match s with
     | EmptyString => false
     | String _ r => includes sub r
     end.

(** A field holds no space character. *)
Fixpoint no_space (s : string) : bool :=
  match s with
  | EmptyString => true
  | String c r => negb (is_space c) && no_space r
  end.

(** [arr[i]] on an array of strings: [undefined] (here [None]) out of
    range. *)
Definition at_index (parts : list string) (i : nat) : option string :=
  nth_error parts i.

(** Template-literal rendering of an integer. *)
Definition string_of_Z (z : Z) : string :=
  NilZero.string_of_int (Z.to_int z).

(** [a || b] on the result of [parseInt]: [None] is [NaN]; [NaN] and [0]
    are falsy. *)
Definition or_default (parsed : option Z) (dflt : Z) : Z :=
  match parsed with
  | Some 0 => dflt
  | Some v => v
  | None => dflt
  end.

End JsString.

Import JsString.

(** ** FEN completion (lines 85-95) *)

(** [fenParts.push(x)] guarded by [fenParts.length === n]. *)
Definition push_if_length (n : nat) (x : string) (fenParts : list string)
  : list string :=
  if Nat.eqb (List.length fenParts) n then fenParts ++ [ x ] else fenParts.

Definition completeFen (partialFen : string) : string :=
  let fenParts := split partialFen in
  if Nat.eqb (List.length fenParts) 6 then partialFen
  else
    let fenParts := push_if_length 2 "-" fenParts in
    let fenParts := push_if_length 3 "-" fenParts in
    let fenParts := push_if_length 4 "0" fenParts in
    let fenParts := push_if_length 5 "1" fenParts in
    join fenParts.

(** The fields of a descriptor, as the script counts them. *)
Definition fields (s : string) : list string := split s.

(** The fixed defaults for fields three to six. *)
Definition fen_defaults : list string := [ "-"; "-"; "0"; "1" ].

(** ** Configuration and state (lines 22-62) *)

Record Settings := {
  autoMove : bool;
  skillLevel : Z;
  depth : Z;
  timeLimitMs : Z;
  humanLikeTiming : bool;
  minDelay : Z;
  maxDelay : Z;
  debugMode : bool;
  showBestMove : bool
}.

Definition defaultSettings : Settings := {|
  autoMove := false;
  skillLevel := 10;
  depth := 4;
  timeLimitMs := 1000;
  humanLikeTiming := false;
  minDelay := 500;
  maxDelay := 2000;
  debugMode := false;
  showBestMove := true
|}.

(** The tracked WebSocket.  [sockId] tells one connection object from
    another, [readyState] is the browser's (0 connecting, 1 open,
    2 closing, 3 closed), and [sendThrows] says whether a call of its
    [send] raises, which is what the [try]/[catch] of [sendMove] guards. *)
Record Socket := {
  sockId : nat;
  readyState : Z;
  sendThrows : bool
}.

Definition WebSocket_OPEN : Z := 1.

(** The object handed to [JSON.stringify] in [sendMove]. *)
Record MoveFrame := {
  frame_t : string;
  frame_u : string;
  frame_b : Z;
  frame_l : Z;
  frame_a : Z
}.

Record HistoryEntry := {
  entry_fen : string;
  entry_move : string;
  entry_timestamp : Z
}.

(** The script's variables, followed by the trace of what it did to its
    surroundings: [engineInbox] are the commands posted to Stockfish,
    [socketOutbox] the frames written to the socket, [timers] the pending
    [setTimeout] callbacks of [sendMoveWithDelay] (delay and captured
    move), [consoleLog] the lines passed to [log], [consoleErrors] those
    passed to [console.error], [statusDisplay] the last text passed to
    [updateStatusDisplay] and [uiPanel] the [style.display] of the panel
    once [createUI] has built it.  What [debug] prints goes to the
    developer console only and is not recorded. *)
Record State := {
  webSocketWrapper : option Socket;
  currentFen : string;
  bestMove : option string;
  isEngineReady : bool;
  isCalculating : bool;
  lastCalculatedFen : option string;
  moveHistory : list HistoryEntry;
  settings : Settings;
  engineInbox : list string;
  socketOutbox : list MoveFrame;
  timers : list (Z * string);
  consoleLog : list string;
  consoleErrors : list string;
  statusDisplay : string;
  uiPanel : option string
}.

Definition initialState : State := {|
  webSocketWrapper := None;
  currentFen := "";
  bestMove := None;
  isEngineReady := false;
  isCalculating := false;
  lastCalculatedFen := None;
  moveHistory := [];
  settings := defaultSettings;
  engineInbox := [];
  socketOutbox := [];
  timers := [];
  consoleLog := [];
  consoleErrors := [];
  statusDisplay := "";
  uiPanel := None
|}.

(** Assignment to one variable of the state. *)
Definition set_webSocketWrapper (v : option Socket) (st : State) : State := {|
  webSocketWrapper := v;
  currentFen := currentFen st;
  bestMove := bestMove st;
  isEngineReady := isEngineReady st;
  isCalculating := isCalculating st;
  lastCalculatedFen := lastCalculatedFen st;
  moveHistory := moveHistory st;
  settings := settings st;
  engineInbox := engineInbox st;
  socketOutbox := socketOutbox st;
  timers := timers st;
  consoleLog := consoleLog st;
  consoleErrors := consoleErrors st;
  statusDisplay := statusDisplay st;
  uiPanel := uiPanel st
|}.

Definition set_currentFen (v : string) (st : State) : State := {|
  webSocketWrapper := webSocketWrapper st;
  currentFen := v;
  bestMove := bestMove st;
  isEngineReady := isEngineReady st;
  isCalculating := isCalculating st;
  lastCalculatedFen := lastCalculatedFen st;
  moveHistory := moveHistory st;
  settings := settings st;
  engineInbox := engineInbox st;
  socketOutbox := socketOutbox st;
  timers := timers st;
  consoleLog := consoleLog st;
  consoleErrors := consoleErrors st;
  statusDisplay := statusDisplay st;
  uiPanel := uiPanel st
|}.

Definition set_bestMove (v : option string) (st : State) : State := {|
  webSocketWrapper := webSocketWrapper st;
  currentFen := currentFen st;
  bestMove := v;
  isEngineReady := isEngineReady st;
  isCalculating := isCalculating st;
  lastCalculatedFen := lastCalculatedFen st;
  moveHistory := moveHistory st;
  settings := settings st;
  engineInbox := engineInbox st;
  socketOutbox := socketOutbox st;
  timers := timers st;
  consoleLog := consoleLog st;
  consoleErrors := consoleErrors st;
  statusDisplay := statusDisplay st;
  uiPanel := uiPanel st
|}.

Definition set_isEngineReady (v : bool) (st : State) : State := {|
  webSocketWrapper := webSocketWrapper st;
  currentFen := currentFen st;
  bestMove := bestMove st;
  isEngineReady := v;
  isCalculating := isCalculating st;
  lastCalculatedFen := lastCalculatedFen st;
  moveHistory := moveHistory st;
  settings := settings st;
  engineInbox := engineInbox st;
  socketOutbox := socketOutbox st;
  timers := timers st;
  consoleLog := consoleLog st;
  consoleErrors := consoleErrors st;
  statusDisplay := statusDisplay st;
  uiPanel := uiPanel st
|}.

Definition set_isCalculating (v : bool) (st : State) : State := {|
  webSocketWrapper := webSocketWrapper st;
  currentFen := currentFen st;
  bestMove := bestMove st;
  isEngineReady := isEngineReady st;
  isCalculating := v;
  lastCalculatedFen := lastCalculatedFen st;
  moveHistory := moveHistory st;
  settings := settings st;
  engineInbox := engineInbox st;
  socketOutbox := socketOutbox st;
  timers := timers st;
  consoleLog := consoleLog st;
  consoleErrors := consoleErrors st;
  statusDisplay := statusDisplay st;
  uiPanel := uiPanel st
|}.

Definition set_lastCalculatedFen (v : option string) (st : State) : State := {|
  webSocketWrapper := webSocketWrapper st;
  currentFen := currentFen st;
  bestMove := bestMove st;
  isEngineReady := isEngineReady st;
  isCalculating := isCalculating st;
  lastCalculatedFen := v;
  moveHistory := moveHistory st;
  settings := settings st;
  engineInbox := engineInbox st;
  socketOutbox := socketOutbox st;
  timers := timers st;
  consoleLog := consoleLog st;
  consoleErrors := consoleErrors st;
  statusDisplay := statusDisplay st;
  uiPanel := uiPanel st
|}.

Definition set_moveHistory (v : list HistoryEntry) (st : State) : State := {|
  webSocketWrapper := webSocketWrapper st;
  currentFen := currentFen st;
  bestMove := bestMove st;
  isEngineReady := isEngineReady st;
  isCalculating := isCalculating st;
  lastCalculatedFen := lastCalculatedFen st;
  moveHistory := v;
  settings := settings st;
  engineInbox := engineInbox st;
  socketOutbox := socketOutbox st;
  timers := timers st;
  consoleLog := consoleLog st;
  consoleErrors := consoleErrors st;
  statusDisplay := statusDisplay st;
  uiPanel := uiPanel st
|}.

Definition set_settings (v : Settings) (st : State) : State := {|
  webSocketWrapper := webSocketWrapper st;
  currentFen := currentFen st;
  bestMove := bestMove st;
  isEngineReady := isEngineReady st;
  isCalculating := isCalculating st;
  lastCalculatedFen := lastCalculatedFen st;
  moveHistory := moveHistory st;
  settings := v;
  engineInbox := engineInbox st;
  socketOutbox := socketOutbox st;
  timers := timers st;
  consoleLog := consoleLog st;
  consoleErrors := consoleErrors st;
  statusDisplay := statusDisplay st;
  uiPanel := uiPanel st
|}.

Definition set_engineInbox (v : list string) (st : State) : State := {|
  webSocketWrapper := webSocketWrapper st;
  currentFen := currentFen st;
  bestMove := bestMove st;
  isEngineReady := isEngineReady st;
  isCalculating := isCalculating st;
  lastCalculatedFen := lastCalculatedFen st;
  moveHistory := moveHistory st;
  settings := settings st;
  engineInbox := v;
  socketOutbox := socketOutbox st;
  timers := timers st;
  consoleLog := consoleLog st;
  consoleErrors := consoleErrors st;
  statusDisplay := statusDisplay st;
  uiPanel := uiPanel st
|}.

Definition set_socketOutbox (v : list MoveFrame) (st : State) : State := {|
  webSocketWrapper := webSocketWrapper st;
  currentFen := currentFen st;
  bestMove := bestMove st;
  isEngineReady := isEngineReady st;
  isCalculating := isCalculating st;
  lastCalculatedFen := lastCalculatedFen st;
  moveHistory := moveHistory st;
  settings := settings st;
  engineInbox := engineInbox st;
  socketOutbox := v;
  timers := timers st;
  consoleLog := consoleLog st;
  consoleErrors := consoleErrors st;
  statusDisplay := statusDisplay st;
  uiPanel := uiPanel st
|}.

Definition set_timers (v : list (Z * string)) (st : State) : State := {|
  webSocketWrapper := webSocketWrapper st;
  currentFen := currentFen st;
  bestMove := bestMove st;
  isEngineReady := isEngineReady st;
  isCalculating := isCalculating st;
  lastCalculatedFen := lastCalculatedFen st;
  moveHistory := moveHistory st;
  settings := settings st;
  engineInbox := engineInbox st;
  socketOutbox := socketOutbox st;
  timers := v;
  consoleLog := consoleLog st;
  consoleErrors := consoleErrors st;
  statusDisplay := statusDisplay st;
  uiPanel := uiPanel st
|}.

Definition set_consoleLog (v : list string) (st : State) : State := {|
  webSocketWrapper := webSocketWrapper st;
  currentFen := currentFen st;
  bestMove := bestMove st;
  isEngineReady := isEngineReady st;
  isCalculating := isCalculating st;
  lastCalculatedFen := lastCalculatedFen st;
  moveHistory := moveHistory st;
  settings := settings st;
  engineInbox := engineInbox st;
  socketOutbox := socketOutbox st;
  timers := timers st;
  consoleLog := v;
  consoleErrors := consoleErrors st;
  statusDisplay := statusDisplay st;
  uiPanel := uiPanel st
|}.

Definition set_consoleErrors (v : list string) (st : State) : State := {|
  webSocketWrapper := webSocketWrapper st;
  currentFen := currentFen st;
  bestMove := bestMove st;
  isEngineReady := isEngineReady st;
  isCalculating := isCalculating st;
  lastCalculatedFen := lastCalculatedFen st;
  moveHistory := moveHistory st;
  settings := settings st;
  engineInbox := engineInbox st;
  socketOutbox := socketOutbox st;
  timers := timers st;
  consoleLog := consoleLog st;
  consoleErrors := v;
  statusDisplay := statusDisplay st;
  uiPanel := uiPanel st
|}.

Definition set_statusDisplay (v : string) (st : State) : State := {|
  webSocketWrapper := webSocketWrapper st;
  currentFen := currentFen st;
  bestMove := bestMove st;
  isEngineReady := isEngineReady st;
  isCalculating := isCalculating st;
  lastCalculatedFen := lastCalculatedFen st;
  moveHistory := moveHistory st;
  settings := settings st;
  engineInbox := engineInbox st;
  socketOutbox := socketOutbox st;
  timers := timers st;
  consoleLog := consoleLog st;
  consoleErrors := consoleErrors st;
  statusDisplay := v;
  uiPanel := uiPanel st
|}.

Definition set_uiPanel (v : option string) (st : State) : State := {|
  webSocketWrapper := webSocketWrapper st;
  currentFen := currentFen st;
  bestMove := bestMove st;
  isEngineReady := isEngineReady st;
  isCalculating := isCalculating st;
  lastCalculatedFen := lastCalculatedFen st;
  moveHistory := moveHistory st;
  settings := settings st;
  engineInbox := engineInbox st;
  socketOutbox := socketOutbox st;
  timers := timers st;
  consoleLog := consoleLog st;
  consoleErrors := consoleErrors st;
  statusDisplay := statusDisplay st;
  uiPanel := v
|}.

(** Assignment to one property of [settings]. *)
Definition set_autoMove (v : bool) (cfg : Settings) : Settings := {|
  autoMove := v;
  skillLevel := skillLevel cfg;
  depth := depth cfg;
  timeLimitMs := timeLimitMs cfg;
  humanLikeTiming := humanLikeTiming cfg;
  minDelay := minDelay cfg;
  maxDelay := maxDelay cfg;
  debugMode := debugMode cfg;
  showBestMove := showBestMove cfg
|}.

Definition set_humanLikeTiming (v : bool) (cfg : Settings) : Settings := {|
  autoMove := autoMove cfg;
  skillLevel := skillLevel cfg;
  depth := depth cfg;
  timeLimitMs := timeLimitMs cfg;
  humanLikeTiming := v;
  minDelay := minDelay cfg;
  maxDelay := maxDelay cfg;
  debugMode := debugMode cfg;
  showBestMove := showBestMove cfg
|}.

Definition set_minDelay (v : Z) (cfg : Settings) : Settings := {|
  autoMove := autoMove cfg;
  skillLevel := skillLevel cfg;
  depth := depth cfg;
  timeLimitMs := timeLimitMs cfg;
  humanLikeTiming := humanLikeTiming cfg;
  minDelay := v;
  maxDelay := maxDelay cfg;
  debugMode := debugMode cfg;
  showBestMove := showBestMove cfg
|}.

Definition set_maxDelay (v : Z) (cfg : Settings) : Settings := {|
  autoMove := autoMove cfg;
  skillLevel := skillLevel cfg;
  depth := depth cfg;
  timeLimitMs := timeLimitMs cfg;
  humanLikeTiming := humanLikeTiming cfg;
  minDelay := minDelay cfg;
  maxDelay := v;
  debugMode := debugMode cfg;
  showBestMove := showBestMove cfg
|}.

(** ** Logging (lines 68-79) *)

(** [log(message)] prints the line; [debug] prints only to the developer
    console and changes nothing the pipeline reads, so it is left out. *)
Definition log (message : string) (st : State) : State :=
  set_consoleLog (consoleLog st ++ [ message ]) st.

Definition console_error (message : string) (st : State) : State :=
  set_consoleErrors (consoleErrors st ++ [ message ]) st.

Definition updateStatusDisplay (status : string) (st : State) : State :=
  set_statusDisplay status st.

Definition postMessage (cmd : string) (st : State) : State :=
  set_engineInbox (engineInbox st ++ [ cmd ]) st.

(** ** Engine adapter: [calculateMove] (lines 254-272) *)

(** [currentFen === lastCalculatedFen]; a string never equals [null]. *)
Definition strict_eq (cur : string) (last : option string) : bool :=
  match last with
  | Some l => String.eqb cur l
  | None => false
  end.

Definition go_command (cfg : Settings) : string :=
  "go depth " ++ string_of_Z (depth cfg)
  ++ " movetime " ++ string_of_Z (timeLimitMs cfg).

Definition calculateMove (st : State) : State :=
  if negb (isEngineReady st) || String.eqb (currentFen st) ""
     || isCalculating st
  then st
  else if strict_eq (currentFen st) (lastCalculatedFen st) then st
  else
    let st := set_isCalculating true st in
    let st := set_lastCalculatedFen (Some (currentFen st)) st in
    let st := updateStatusDisplay "Calculating..." st in
    let st := postMessage ("position fen " ++ currentFen st) st in
    postMessage (go_command (settings st)) st.

(** ** Position tracker: the socket's message handler (lines 114-150) *)

Inductive FrameType := T_d | T_move | T_end | T_endData | T_other.

(** A decoded inbound frame: its [t], [d.fen] when [d] is present and
    [d.fen] is a string, and [d.ply] when it is defined.  Plies are
    integers. *)
Record Frame := {
  frame_type : FrameType;
  frame_fen : option string;
  frame_ply : option Z
}.

(** [ply % 2 === 0]; the remainder of [%] has the sign of the dividend. *)
Definition isWhitesTurn (ply : Z) : bool := Z.rem ply 2 =? 0.

Definition side_suffix (ply : Z) : string :=
  if isWhitesTurn ply then " w" else " b".

Definition ply_or_zero (ply : option Z) : Z :=
  match ply with
  | Some p => p
  | None => 0
  end.

(** Lines 126-133: the position written to [currentFen] for a state
    update carrying [fen] and [ply]. *)
Definition trackedFen (fen : string) (ply : option Z) : string :=
  completeFen (fen ++ side_suffix (ply_or_zero ply)).

Definition onSocketMessage (message : Frame) (st : State) : State :=
  match frame_type message with
  | T_d | T_move =>
      match frame_fen message with
      | Some fen =>
          let st := set_currentFen (trackedFen fen (frame_ply message)) st in
          if isEngineReady st && negb (isCalculating st)
          then calculateMove st
          else st
      | None => st
      end
  | T_end | T_endData =>
      let st := log "Game ended" st in
      set_bestMove None st
  | T_other => st
  end.

(** ** Dispatch scheduler (lines 278-331) *)

Definition move_frame (move : string) : MoveFrame := {|
  frame_t := "move";
  frame_u := move;
  frame_b := 1;
  frame_l := 10000;
  frame_a := 1
|}.

Definition socket_open (ws : option Socket) : bool :=
  match ws with
  | Some sock => readyState sock =? WebSocket_OPEN
  | None => false
  end.

Definition socket_send_throws (ws : option Socket) : bool :=
  match ws with
  | Some sock => sendThrows sock
  | None => false
  end.

(** [sendMove(move)]: the new state and the returned boolean. *)
Definition sendMove (move : string) (st : State) : State * bool :=
  if negb (socket_open (webSocketWrapper st)) then
    (log "Cannot send move: WebSocket not connected" st, false)
  else if String.eqb move "" || (String.length move <? 4)%nat then
    (log "Invalid move format" st, false)
  else if socket_send_throws (webSocketWrapper st) then
    (console_error "Failed to send move:" st, false)
  else
    let st := set_socketOutbox (socketOutbox st ++ [ move_frame move ]) st in
    let st := log ("Move sent: " ++ move) st in
    let st := set_bestMove None st in
    (st, true).

(** JavaScript numbers are IEEE doubles.  The delays are integers, and
    an integer goes through an arithmetic operation as the double nearest
    to the exact result: itself below [2^53], and beyond that the nearest
    integer with 53 significant bits, a tie going to the even
    significand. *)
Definition round_nonneg (z : Z) : Z :=
  if z <? 2 ^ 53 then z
  else
    let p := 2 ^ (Z.log2 z - 52) in
    let q := z / p in
    let r := z mod p in
    if 2 * r <? p then q * p
    else if p <? 2 * r then (q + 1) * p
    else if Z.even q then q * p
    else (q + 1) * p.

Definition to_double (z : Z) : Z :=
  if z <? 0 then - round_nonneg (- z) else round_nonneg z.

(** [Math.random()] is a double in [0, 1): a 53-bit numerator [rnd] over
    [2^53].  Its product with the integer [span] is the double nearest to
    [rnd * span / 2^53], that is [to_double (rnd * span)] over [2^53],
    and [Math.floor] takes the integer below it. *)
Definition random_denominator : Z := 2 ^ 53.

Definition is_random (rnd : Z) : Prop := 0 <= rnd < random_denominator.

Definition floor_random_times (rnd span : Z) : Z :=
  to_double (rnd * span) / random_denominator.

(** Line 319: the difference, the product and the sum are each rounded. *)
Definition computeDelay (cfg : Settings) (rnd : Z) : Z :=
  if humanLikeTiming cfg
  then to_double
         (floor_random_times rnd (to_double (maxDelay cfg - minDelay cfg))
          + minDelay cfg)
  else minDelay cfg.

Definition sendMoveWithDelay (move : string) (rnd : Z) (st : State) : State :=
  let delay := computeDelay (settings st) rnd in
  let st := updateStatusDisplay ("Waiting " ++ string_of_Z delay ++ "ms...") st in
  set_timers (timers st ++ [ (delay, move) ]) st.

(** Removal of the timer that fires. *)
Fixpoint remove_nth {A : Type} (i : nat) (l : list A) : list A :=
  match l, i with
  | [], _ => []
  | _ :: t, O => t
  | h :: t, S j => h :: remove_nth j t
  end.

(** The callback armed at line 327, run when pending timer [i] expires. *)
Definition timerFires (i : nat) (st : State) : State :=
  match nth_error (timers st) i with
  | Some (_, move) =>
      let st := set_timers (remove_nth i (timers st)) st in
      let st := fst (sendMove move st) in
      updateStatusDisplay "Move sent" st
  | None => st
  end.

(** ** Engine adapter: the Stockfish message handler (lines 209-252) *)

(** [moveHistory.push(entry); if (moveHistory.length > 50) moveHistory.shift()]. *)
Definition push_history (entry : HistoryEntry) (h : list HistoryEntry)
  : list HistoryEntry :=
  let h := (h ++ [ entry ])%list in
  if (50 <? List.length h)%nat then tl h else h.

(** [message] is the line once taken out of the event, [now] is
    [Date.now()] and [rnd] the random draw a scheduled dispatch would use.
    The [info depth] branch only rewrites the panel's info line. *)
Definition onEngineMessage (message : string) (now rnd : Z) (st : State)
  : State :=
  if includes "bestmove" message then
    let st := set_isCalculating false st in
    let st := set_bestMove (at_index (split message) 1) st in
    match bestMove st with
    | Some move =>
        if negb (String.eqb move "") && negb (String.eqb move "(none)") then
          let st := log ("Best move calculated: " ++ move) st in
          let entry := {| entry_fen := currentFen st;
                          entry_move := move;
                          entry_timestamp := now |} in
          let st := set_moveHistory (push_history entry (moveHistory st)) st in
          if autoMove (settings st) then sendMoveWithDelay move rnd st else st
        else st
    | None => st
    end
  else st.

(** ** Engine start-up (lines 172-207) *)

(** How a run of [initializeChessEngine] goes: [STOCKFISH] is not there
    yet; something inside the [try] raises after [posted] of the five
    commands of the handshake went out ([0] when [STOCKFISH()] itself
    raises); or the run goes through. *)
Inductive EngineLoad := NotLoaded | LoadThrows (posted : nat) | Loaded.

(** The five commands posted at lines 182-186. *)
Definition handshake (cfg : Settings) : list string :=
  [ "uci";
    "setoption name Skill Level value " ++ string_of_Z (skillLevel cfg);
    "setoption name Hash value 16";
    "setoption name Threads value 1";
    "ucinewgame" ].

(** One run of [initializeChessEngine]; the two failing outcomes re-arm
    the function itself, which the environment shows as a later run.
    What follows the handshake inside the [try] are assignments and the
    calls of [log] and of the panel. *)
Definition initializeChessEngine (load : EngineLoad) (st : State) : State :=
  match load with
  | NotLoaded => log "Waiting for Stockfish to load..." st
  | LoadThrows posted =>
      let st := set_engineInbox
                  (engineInbox st ++ firstn posted (handshake (settings st)))
                  st in
      console_error "Failed to initialize Stockfish:" st
  | Loaded =>
      let st := postMessage "uci" st in
      let st := postMessage ("setoption name Skill Level value "
                             ++ string_of_Z (skillLevel (settings st))) st in
      let st := postMessage "setoption name Hash value 16" st in
      let st := postMessage "setoption name Threads value 1" st in
      let st := postMessage "ucinewgame" st in
      let st := set_isEngineReady true st in
      let st := log ("Stockfish engine initialized (Skill Level: "
                     ++ string_of_Z (skillLevel (settings st))
                     ++ ", Depth: " ++ string_of_Z (depth (settings st))
                     ++ ")") st in
      updateStatusDisplay "Engine Ready" st
  end.

(** ** The panel's handlers (lines 662-705, 748-777) *)

(** The play button and Alt+M. *)
Definition onPlayClick (rnd : Z) (st : State) : State :=
  match bestMove st with
  | Some move =>
      if negb (String.eqb move "") then sendMoveWithDelay move rnd st
      else log "No move to play" st
  | None => log "No move to play" st
  end.

(** The recalculate button and Alt+C. *)
Definition onRecalcClick (st : State) : State :=
  calculateMove (set_lastCalculatedFen None st).

(** The [change] handlers of the two delay inputs; [parsed] is what
    [parseInt(e.target.value)] gave, [None] for [NaN].  [saveSettings]
    persists the same record. *)
Definition onMinDelayChange (parsed : option Z) (st : State) : State :=
  set_settings
    (set_minDelay (Z.max 100 (or_default parsed 500)) (settings st)) st.

Definition onMaxDelayChange (parsed : option Z) (st : State) : State :=
  set_settings
    (set_maxDelay (Z.max (to_double (minDelay (settings st) + 100))
                         (or_default parsed 2000)) (settings st)) st.

(** Alt+A. *)
Definition onToggleAutoMove (st : State) : State :=
  let st := set_settings
              (set_autoMove (negb (autoMove (settings st))) (settings st)) st in
  log (if autoMove (settings st) then "Auto move: ON" else "Auto move: OFF") st.

(** The human-timing toggle, the panel's class following the setting. *)
Definition onToggleHumanTiming (st : State) : State :=
  let st := set_settings
              (set_humanLikeTiming (negb (humanLikeTiming (settings st)))
                                   (settings st)) st in
  log (if humanLikeTiming (settings st)
       then "Human-like timing: ON" else "Human-like timing: OFF") st.

(** ** The socket's life (lines 104-112, 152-157) *)

(** A matching connection is constructed: it becomes the tracked one. *)
Definition onSocketConstructed (sock : Socket) (st : State) : State :=
  set_webSocketWrapper (Some sock) st.

(** The browser moves the tracked connection to another ready state. *)
Definition onReadyState (rs : Z) (st : State) : State :=
  match webSocketWrapper st with
  | Some sock =>
      set_webSocketWrapper
        (Some {| sockId := sockId sock; readyState := rs;
                 sendThrows := sendThrows sock |}) st
  | None => st
  end.

(** The [close] listener of connection [id]. *)
Definition onSocketClose (id : nat) (st : State) : State :=
  match webSocketWrapper st with
  | Some sock =>
      if Nat.eqb (sockId sock) id then set_webSocketWrapper None st else st
  | None => st
  end.

(** ** The event loop *)

Inductive Event :=
| EvSocketMessage (message : Frame)
| EvEngineMessage (message : string) (now rnd : Z)
| EvTimer (i : nat)
| EvPlayClick (rnd : Z)
| EvRecalcClick
| EvMinDelayChange (parsed : option Z)
| EvMaxDelayChange (parsed : option Z)
| EvToggleAutoMove
| EvToggleHumanTiming
| EvInitEngine (load : EngineLoad)
| EvSocketConstructed (sock : Socket)
| EvReadyState (rs : Z)
| EvSocketClose (id : nat).

Definition handle (ev : Event) (st : State) : State :=
  match ev with
  | EvSocketMessage message => onSocketMessage message st
  | EvEngineMessage message now rnd => onEngineMessage message now rnd st
  | EvTimer i => timerFires i st
  | EvPlayClick rnd => onPlayClick rnd st
  | EvRecalcClick => onRecalcClick st
  | EvMinDelayChange parsed => onMinDelayChange parsed st
  | EvMaxDelayChange parsed => onMaxDelayChange parsed st
  | EvToggleAutoMove => onToggleAutoMove st
  | EvToggleHumanTiming => onToggleHumanTiming st
  | EvInitEngine load => initializeChessEngine load st
  | EvSocketConstructed sock => onSocketConstructed sock st
  | EvReadyState rs => onReadyState rs st
  | EvSocketClose id => onSocketClose id st
  end.

(** Handlers run to completion, one event after the other. *)
Fixpoint run (evs : list Event) (st : State) : State :=
  match evs with
  | [] => st
  | ev :: rest => run rest (handle ev st)
  end.

(** ** Observations used by the statements *)

(** The engine submissions: the [position fen] commands posted so far. *)
Definition is_submission (cmd : string) : bool :=
  String.prefix "position fen " cmd.

Definition submissions (st : State) : nat :=
  List.length (filter is_submission (engineInbox st)).

(** The position a frame makes the tracker publish, if it is a state
    update. *)
Definition positionOf (message : Frame) : option string :=
  match frame_type message, frame_fen message with
  | (T_d | T_move), Some fen => Some (trackedFen fen (frame_ply message))
  | _, _ => None
  end.

(** An event that neither moves the tracker off position [p] nor clears
    the last-submitted marker. *)
Definition keeps_position (p : string) (ev : Event) : bool :=
  match ev with
  | EvSocketMessage message =>
      match positionOf message with
      | Some q => String.eqb q p
      | None => true
      end
  | EvRecalcClick => false
  | _ => true
  end.

(** The timing invariant of the configuration. *)
Definition delays_ok (cfg : Settings) : Prop :=
  maxDelay cfg >= minDelay cfg + 100.

(** A state update carrying the bare piece placement [fen] at ply [ply]. *)
Definition state_update (fen : string) (ply : option Z) : Frame := {|
  frame_type := T_move;
  frame_fen := Some fen;
  frame_ply := ply
|}.

(** A script whose engine is up and whose socket is open, reached from
    the start by the events of a normal page load. *)
Definition open_socket : Socket :=
  {| sockId := 0; readyState := 0; sendThrows := false |}.

Definition readyState0 : State :=
  run [ EvInitEngine Loaded; EvSocketConstructed open_socket;
        EvReadyState WebSocket_OPEN ] initialState.

(** What the admission guard of [calculateMove] reads and writes besides
    the two flags. *)
Definition adapter_view (st : State) : string * option string * list string :=
  (currentFen st, lastCalculatedFen st, filter is_submission (engineInbox st)).

(** The result of the handler on a one-field state update. *)
Definition one_field_update : State :=
  onSocketMessage (state_update "8/8/8/8/8/8/8/K6k" (Some 0)) readyState0.

(** Two identical state updates with an engine answer in between. *)
Definition repeated_update : list Event :=
  [ EvSocketMessage (state_update "8/8/8/8/8/8/8/K6k" (Some 0));
    EvEngineMessage "bestmove a1a2 ponder h1h2" 0 0;
    EvSocketMessage (state_update "8/8/8/8/8/8/8/K6k" (Some 0)) ].

(** The engine reports no legal move, then the play button is pressed
    and the armed timer expires. *)
Definition none_then_play : list Event :=
  [ EvEngineMessage "bestmove (none)" 0 0; EvPlayClick 0; EvTimer 0 ].

(** A move is found and scheduled by hand, the connection closes before
    the timer expires. *)
Definition send_after_close : list Event :=
  [ EvEngineMessage "bestmove e2e4 ponder e7e5" 0 0; EvPlayClick 0;
    EvSocketClose 0; EvTimer 0 ].

(** The minimum delay is raised above the stored maximum. *)
Definition raise_min_delay : list Event :=
  [ EvToggleHumanTiming; EvMinDelayChange (Some 3000) ].

(** The minimum delay is set to the stored maximum. *)
Definition equal_delays : list Event :=
  [ EvToggleHumanTiming; EvMinDelayChange (Some 2000) ].

(** The draw one half. *)
Definition half : Z := 2 ^ 52.

(** A second position arrives while the first is being calculated. *)
Definition update_while_calculating : State :=
  run [ EvSocketMessage (state_update "8/8/8/8/8/8/8/K6k" (Some 0));
        EvSocketMessage (state_update "8/8/8/8/8/8/8/K5k1" (Some 1)) ]
      readyState0.

(** ** The rest of the panel and of the page (lines 104-112, 634-660,
    684-690, 748-786) *)

Definition set_depth (v : Z) (cfg : Settings) : Settings := {|
  autoMove := autoMove cfg;
  skillLevel := skillLevel cfg;
  depth := v;
  timeLimitMs := timeLimitMs cfg;
  humanLikeTiming := humanLikeTiming cfg;
  minDelay := minDelay cfg;
  maxDelay := maxDelay cfg;
  debugMode := debugMode cfg;
  showBestMove := showBestMove cfg
|}.

Definition set_skillLevel (v : Z) (cfg : Settings) : Settings := {|
  autoMove := autoMove cfg;
  skillLevel := v;
  depth := depth cfg;
  timeLimitMs := timeLimitMs cfg;
  humanLikeTiming := humanLikeTiming cfg;
  minDelay := minDelay cfg;
  maxDelay := maxDelay cfg;
  debugMode := debugMode cfg;
  showBestMove := showBestMove cfg
|}.

Definition set_debugMode (v : bool) (cfg : Settings) : Settings := {|
  autoMove := autoMove cfg;
  skillLevel := skillLevel cfg;
  depth := depth cfg;
  timeLimitMs := timeLimitMs cfg;
  humanLikeTiming := humanLikeTiming cfg;
  minDelay := minDelay cfg;
  maxDelay := maxDelay cfg;
  debugMode := v;
  showBestMove := showBestMove cfg
|}.

(** The [change] handler of the depth input (lines 655-660). *)
Definition onDepthChange (parsed : option Z) (st : State) : State :=
  let st := set_settings
              (set_depth (Z.max 1 (Z.min 20 (or_default parsed 4)))
                         (settings st)) st in
  log ("Depth set to " ++ string_of_Z (depth (settings st))) st.

(** The [input] handler of the skill slider (lines 643-652); a range
    input always holds a number, [value]. *)
Definition onSkillInput (value : Z) (st : State) : State :=
  let st := set_settings (set_skillLevel value (settings st)) st in
  if isEngineReady st then
    let st := postMessage ("setoption name Skill Level value "
                           ++ string_of_Z (skillLevel (settings st))) st in
    log ("Skill level set to " ++ string_of_Z (skillLevel (settings st))) st
  else st.

(** The debug toggle (lines 685-690), the panel's class following the
    setting. *)
Definition onToggleDebug (st : State) : State :=
  let st := set_settings
              (set_debugMode (negb (debugMode (settings st))) (settings st))
              st in
  log (if debugMode (settings st) then "Debug mode: ON" else "Debug mode: OFF")
      st.

(** [key.toLowerCase()] on the letters of the shortcuts. *)
Definition lower_ascii (c : ascii) : ascii :=
  let n := nat_of_ascii c in
  if ((65 <=? n) && (n <=? 90))%nat then ascii_of_nat (n + 32) else c.

Fixpoint toLowerCase (s : string) : string :=
  match s with
  | EmptyString => EmptyString
  | String c r => String (lower_ascii c) (toLowerCase r)
  end.

(** Lines 781-784: the panel, if there is one, is hidden unless it is
    hidden already, and shown then. *)
Definition onTogglePanel (st : State) : State :=
  match uiPanel st with
  | Some display =>
      set_uiPanel
        (Some (if String.eqb display "none" then "block" else "none")) st
  | None => st
  end.

(** The [keydown] listener (lines 749-786): four tests in a row on the
    same key. *)
Definition onKeyDown (altKey : bool) (key : string) (rnd : Z) (st : State)
  : State :=
  let st := if altKey && String.eqb (toLowerCase key) "m"
            then onPlayClick rnd st else st in
  let st := if altKey && String.eqb (toLowerCase key) "a"
            then onToggleAutoMove st else st in
  let st := if altKey && String.eqb (toLowerCase key) "c"
            then onRecalcClick st else st in
  let st := if altKey && String.eqb (toLowerCase key) "h"
            then onTogglePanel st else st in
  st.

(** [createUI] (lines 337-596) as far as the script's variables go: it
    waits for the document's body, then builds the panel, shown, and
    logs it. *)
Definition onCreateUI (bodyReady : bool) (st : State) : State :=
  if bodyReady then log "UI panel created" (set_uiPanel (Some "") st)
  else st.

(** The [construct] trap of the WebSocket proxy (lines 105-161): only a
    connection whose URL names the site or a socket path is tracked. *)
Definition constructSocket (url : string) (sock : Socket) (st : State)
  : State :=
  if includes "lichess.org" url || includes "/socket" url
  then onSocketConstructed sock st
  else st.

(** Everything that can happen on the page. *)
Inductive PageEvent :=
| Core (ev : Event)
| EvDepthChange (parsed : option Z)
| EvSkillInput (value : Z)
| EvToggleDebug
| EvKeyDown (altKey : bool) (key : string) (rnd : Z)
| EvConstruct (url : string) (sock : Socket)
| EvCreateUI (bodyReady : bool).

Definition handlePage (ev : PageEvent) (st : State) : State :=
  match ev with
  | Core ev => handle ev st
  | EvDepthChange parsed => onDepthChange parsed st
  | EvSkillInput value => onSkillInput value st
  | EvToggleDebug => onToggleDebug st
  | EvKeyDown altKey key rnd => onKeyDown altKey key rnd st
  | EvConstruct url sock => constructSocket url sock st
  | EvCreateUI bodyReady => onCreateUI bodyReady st
  end.

Fixpoint runPage (evs : list PageEvent) (st : State) : State :=
  match evs with
  | [] => st
  | ev :: rest => runPage rest (handlePage ev st)
  end.

(** The states the script can be in: those reached from its start. *)
Definition reachable (st : State) : Prop :=
  exists evs, st = runPage evs initialState.

(** The engine's answers among the events: lines holding "bestmove". *)
Definition is_answer (ev : PageEvent) : bool :=
  match ev with
  | Core (EvEngineMessage message _ _) => includes "bestmove" message
  | _ => false
  end.

Definition answers (evs : list PageEvent) : nat :=
  List.length (filter is_answer evs).


(** A frame as [sendMove] builds them, around a move of four characters
    or more. *)
Definition well_formed_frame (f : MoveFrame) : Prop :=
  f = move_frame (frame_u f) /\ (4 <= String.length (frame_u f))%nat.

(** The random draw an event carries, if any, is a value of
    [Math.random()]. *)
Definition draws_random (ev : PageEvent) : Prop :=
  match ev with
  | Core (EvEngineMessage _ _ rnd) => is_random rnd
  | Core (EvPlayClick rnd) => is_random rnd
  | EvKeyDown _ _ rnd => is_random rnd
  | _ => True
  end.

(** The history after the entries [es] were pushed one by one. *)
Definition push_all (es h : list HistoryEntry) : list HistoryEntry :=
  fold_left (fun acc e => push_history e acc) es h.

(** The bounds the panel's inputs enforce on what they store. *)
Definition settings_sane (cfg : Settings) : Prop :=
  1 <= depth cfg <= 20 /\ 100 <= minDelay cfg /\ 100 <= maxDelay cfg.

(** One when a calculation is outstanding. *)
Definition outstanding (st : State) : nat :=
  if isCalculating st then 1%nat else 0%nat.



(** Every pending timer waits at least [d] milliseconds. *)
Definition timers_at_least (d : Z) (st : State) : Prop :=
  Forall (fun t => d <= fst t) (timers st).

(** A tracked socket that is OPEN and whose [send] goes through. *)
Definition socket_usable (st : State) : Prop :=
  exists sock,
    webSocketWrapper st = Some sock
    /\ readyState sock = WebSocket_OPEN
    /\ sendThrows sock = false.

(** A state with its history left out. *)
Definition forget_history (st : State) : State := set_moveHistory [] st.

(** The integers a double can hold: a significand of at most 53 bits
    times a power of two. *)
Definition representable (a : Z) : Prop :=
  exists m j, 0 <= m <= 2 ^ 53 /\ 0 <= j /\ a = m * 2 ^ j.

(** The two delays are set beyond [2^53], the maximum first. *)
Definition huge_delays : list Event :=
  [ EvToggleHumanTiming; EvMaxDelayChange (Some (2 ^ 53 + 4));
    EvMinDelayChange (Some (2 ^ 53 + 2)) ].

(** The fields as the specification words them, whitespace-separated:
    the maximal runs of characters other than space, tab, line feed,
    vertical tab, form feed and carriage return.  [fields] above is what
    the code counts. *)
Definition is_whitespace (c : ascii) : bool :=
  let n := nat_of_ascii c in
  Nat.eqb n 32 || (Nat.leb 9 n && Nat.leb n 13).

Fixpoint ws_fields (s : string) : list string :=
  match s with
  | EmptyString => []
  | String c r =>
      if is_whitespace c then ws_fields r
      else
        match r with
        | EmptyString => [ String c "" ]
        | String c' _ =>
            if is_whitespace c' then String c "" :: ws_fields r
            else match ws_fields r with
                 | h :: t => String c h :: t
                 | [] => [ String c "" ]
                 end
        end
  end.

(** A field of a well-formed descriptor: not empty and free of
    whitespace. *)
Fixpoint no_whitespace (s : string) : bool :=
  match s with
  | EmptyString => true
  | String c r => negb (is_whitespace c) && no_whitespace r
  end.

Definition proper_field (f : string) : bool :=
  negb (String.eqb f "") && no_whitespace f.

(** * Properties *)

(** ** Facts about [split] and [join] *)

Lemma split_nonempty (s : string) : split s <> [].
Proof.
  destruct s as [|c r]; simpl; [discriminate|].
  destruct (is_space c); [discriminate|].
  destruct (split r); discriminate.
Qed.

Lemma split_no_space (s : string) : forallb no_space (split s) = true.
Proof.
  induction s as [|c r IH]; simpl; [reflexivity|].
  destruct (is_space c) eqn:Hc; simpl; [exact IH|].
  destruct (split r) as [|h t] eqn:Hr; simpl in *.
  - rewrite Hc. reflexivity.
  - rewrite Hc. simpl. exact IH.
Qed.

Lemma join_cons (x : string) (l : list string) :
  l <> [] -> join (x :: l) = x ++ " " ++ join l.
Proof. destruct l; [congruence|reflexivity]. Qed.

Lemma join_split (s : string) : join (split s) = s.
Proof.
  induction s as [|c r IH]; simpl; [reflexivity|].
  destruct (is_space c) eqn:Hc.
  - rewrite join_cons by apply split_nonempty.
    rewrite IH. simpl.
    unfold is_space in Hc. apply Ascii.eqb_eq in Hc. subst c. reflexivity.
  - pose proof (split_nonempty r) as Hne.
    destruct (split r) as [|h t]; [congruence|].
    destruct t as [|h' t'].
    + simpl in *. rewrite IH. reflexivity.
    + change (join (String c h :: h' :: t'))
        with (String c (h ++ " " ++ join (h' :: t'))).
      change (join (h :: h' :: t')) with (h ++ " " ++ join (h' :: t')) in IH.
      rewrite IH. reflexivity.
Qed.

Lemma split_app_String_space (x r : string) :
  no_space x = true -> split (x ++ String " " r) = x :: split r.
Proof.
  induction x as [|c x IH]; simpl; intros Hx; [reflexivity|].
  apply andb_true_iff in Hx as [Hc Hx].
  apply negb_true_iff in Hc. rewrite Hc.
  rewrite (IH Hx). reflexivity.
Qed.

Lemma split_app_space (x r : string) :
  no_space x = true -> split (x ++ " " ++ r) = x :: split r.
Proof. exact (split_app_String_space x r). Qed.

Lemma split_single (x : string) : no_space x = true -> split x = [ x ].
Proof.
  induction x as [|c x IH]; simpl; intros Hx; [reflexivity|].
  apply andb_true_iff in Hx as [Hc Hx].
  apply negb_true_iff in Hc. rewrite Hc.
  rewrite (IH Hx). reflexivity.
Qed.

Lemma split_join (l : list string) :
  l <> [] -> forallb no_space l = true -> split (join l) = l.
Proof.
  induction l as [|x l IH]; [congruence|].
  intros _ Hall. simpl in Hall. apply andb_true_iff in Hall as [Hx Hl].
  destruct l as [|y l].
  - simpl. apply split_single. exact Hx.
  - rewrite join_cons by discriminate.
    rewrite split_app_space by exact Hx.
    rewrite IH; [reflexivity|discriminate|exact Hl].
Qed.

(** ** FEN completion *)

Example completeFen_start :
  completeFen "rnbqkbnr/pppppppp/8/8/8/8/PPPPPPPP/RNBQKBNR w"
  = "rnbqkbnr/pppppppp/8/8/8/8/PPPPPPPP/RNBQKBNR w - - 0 1".
Proof. reflexivity. Qed.

Example completeFen_keeps_castling :
  completeFen "8/8/8/8/8/8/8/8 b KQkq" = "8/8/8/8/8/8/8/8 b KQkq - 0 1".
Proof. reflexivity. Qed.

Example completeFen_one_field : completeFen "8/8" = "8/8".
Proof. reflexivity. Qed.

Ltac split_all_true H :=
  simpl in H;
  repeat match type of H with
         | (_ && _)%bool = true =>
             let H1 := fresh "Hn" in
             apply andb_true_iff in H as [H1 H]
         end.

Ltac solve_all_true :=
  simpl;
  repeat match goal with
         | |- (_ && _)%bool = true => apply andb_true_iff; split
         end;
  solve [ assumption | reflexivity ].

(** With two to six fields the completed descriptor splits into the
    fields of the input followed by the defaults that were missing. *)
Lemma completeFen_fields (s : string) :
  (2 <= List.length (split s) <= 6)%nat ->
  split (completeFen s)
  = (split s ++ skipn (List.length (split s) - 2) fen_defaults)%list.
Proof.
  intros Hlen. unfold completeFen.
  pose proof (split_no_space s) as Hns.
  destruct (split s) as [|a [|b [|c [|d [|e [|f [|g l]]]]]]] eqn:Hs;
    simpl in Hlen; try lia;
    unfold push_if_length, fen_defaults;
    cbn [List.length Nat.eqb Nat.sub skipn app];
    split_all_true Hns.
  - apply split_join; [discriminate|solve_all_true].
  - apply split_join; [discriminate|solve_all_true].
  - apply split_join; [discriminate|solve_all_true].
  - apply split_join; [discriminate|solve_all_true].
  - exact Hs.
Qed.

Lemma completeFen_six (s : string) :
  List.length (split s) = 6%nat -> completeFen s = s.
Proof. intros H. unfold completeFen. rewrite H. reflexivity. Qed.

(** The claim of C3 fails for fields separated by whitespace other than
    one space: after two spaces the code counts an empty field, so a
    descriptor of two whitespace-separated fields comes out with five,
    its castling default left out; and a tab does not separate at all for
    the code, so a descriptor of two fields separated by one comes back
    as it is. *)
Lemma whitespace_fields_are_not_completed :
  ws_fields "8/8/8/8/8/8/8/K6k  w" = [ "8/8/8/8/8/8/8/K6k"; "w" ]
  /\ completeFen "8/8/8/8/8/8/8/K6k  w" = "8/8/8/8/8/8/8/K6k  w - 0 1"
  /\ ws_fields (completeFen "8/8/8/8/8/8/8/K6k  w")
     = [ "8/8/8/8/8/8/8/K6k"; "w"; "-"; "0"; "1" ]
  /\ List.length (ws_fields (completeFen "8/8/8/8/8/8/8/K6k  w")) <> 6%nat
  /\ ws_fields ("8/8/8/8/8/8/8/K6k" ++ String "009" "w")
     = [ "8/8/8/8/8/8/8/K6k"; "w" ]
  /\ completeFen ("8/8/8/8/8/8/8/K6k" ++ String "009" "w")
     = "8/8/8/8/8/8/8/K6k" ++ String "009" "w"
  /\ List.length
       (ws_fields (completeFen ("8/8/8/8/8/8/8/K6k" ++ String "009" "w")))
     <> 6%nat.
Proof.
  vm_compute. repeat split; try reflexivity; discriminate.
Qed.

(** C3 (amended): for every input with two to six fields as the code
    counts them, the pieces between single space characters,
    [completeFen] returns a string of exactly six such fields whose
    leading fields are those of the input, unaltered, and whose remaining
    fields are the defaults "-", "-", "0", "1" taken in that order from
    the first one missing; completing a second time changes nothing. *)
Theorem completeFen_six_fields_idempotent (s : string) :
  (2 <= List.length (fields s) <= 6)%nat ->
  List.length (fields (completeFen s)) = 6%nat
  /\ firstn (List.length (fields s)) (fields (completeFen s)) = fields s
  /\ skipn (List.length (fields s)) (fields (completeFen s))
     = skipn (List.length (fields s) - 2) fen_defaults
  /\ completeFen (completeFen s) = completeFen s.
Proof.
  unfold fields. intros Hlen.
  pose proof (completeFen_fields s Hlen) as Hf.
  assert (Hsix : List.length (split (completeFen s)) = 6%nat).
  { rewrite Hf, length_app, length_skipn. unfold fen_defaults.
    cbn [List.length]. lia. }
  split; [exact Hsix|].
  split.
  { rewrite Hf, firstn_app, firstn_all, Nat.sub_diag. simpl.
    apply app_nil_r. }
  split.
  { rewrite Hf at 1. rewrite skipn_app, skipn_all, Nat.sub_diag.
    reflexivity. }
  apply completeFen_six. exact Hsix.
Qed.

Lemma completeFen_six_fields_idempotent_witness :
  (2 <= List.length (fields "8/8/8/8/8/8/8/8 b KQkq") <= 6)%nat
  /\ List.length (fields (completeFen "8/8/8/8/8/8/8/8 b KQkq")) = 6%nat
  /\ firstn 3 (fields (completeFen "8/8/8/8/8/8/8/8 b KQkq"))
     = [ "8/8/8/8/8/8/8/8"; "b"; "KQkq" ]
  /\ skipn 3 (fields (completeFen "8/8/8/8/8/8/8/8 b KQkq")) = [ "-"; "0"; "1" ]
  /\ completeFen (completeFen "8/8/8/8/8/8/8/8 b KQkq")
     = completeFen "8/8/8/8/8/8/8/8 b KQkq".
Proof.
  split; [simpl; lia|].
  apply (completeFen_six_fields_idempotent "8/8/8/8/8/8/8/8 b KQkq").
  simpl. lia.
Defined.

(** ** Position tracker *)

Lemma split_app_sp (x r : string) :
  split (x ++ String " " r) = (split x ++ split r)%list.
Proof.
  induction x as [|c x IH]; [reflexivity|].
  cbn [append split]. rewrite IH.
  destruct (is_space c); [reflexivity|].
  pose proof (split_nonempty x) as Hne.
  destruct (split x) as [|h t]; [congruence|reflexivity].
Qed.

Lemma isWhitesTurn_even (ply : Z) : isWhitesTurn ply = Z.even ply.
Proof.
  unfold isWhitesTurn. pose proof (Z.quot_rem' ply 2) as Hq.
  destruct (Z.even ply) eqn:He.
  - apply Z.even_spec in He as [k Hk]. apply Z.eqb_eq.
    rewrite Hk, Z.mul_comm. apply Z.rem_mul. discriminate.
  - apply Z.eqb_neq. intros Hr.
    assert (Ht : Z.even ply = true)
      by (apply Z.even_spec; exists (Z.quot ply 2); lia).
    congruence.
Qed.

Lemma fields_side_suffix (fen : string) (ply : Z) :
  fields (fen ++ side_suffix ply)
  = (fields fen ++ [ if isWhitesTurn ply then "w" else "b" ])%list.
Proof.
  unfold fields, side_suffix.
  destruct (isWhitesTurn ply); apply split_app_sp.
Qed.

Lemma split_one_field (s : string) :
  (List.length (split s) < 2)%nat -> split s = [ s ].
Proof.
  intros Hlen. pose proof (join_split s) as Hj.
  pose proof (split_nonempty s) as Hne.
  destruct (split s) as [|a [|b l]]; simpl in Hlen; try lia; [congruence|].
  simpl in Hj. congruence.
Qed.

Lemma append_nonempty_r (a b : string) :
  b <> "" -> String.eqb (a ++ b) "" = false.
Proof.
  intros Hb. destruct a; simpl; [|reflexivity].
  destruct b; [congruence|reflexivity].
Qed.

(** A descriptor of one field comes out as that field, the side to move
    and the four defaults. *)
Lemma trackedFen_one_field (fen : string) (ply : option Z) :
  (List.length (fields fen) < 2)%nat ->
  trackedFen fen ply = fen ++ side_suffix (ply_or_zero ply) ++ " - - 0 1".
Proof.
  intros Hlen. unfold trackedFen, completeFen.
  pose proof (fields_side_suffix fen (ply_or_zero ply)) as Hf.
  unfold fields in *. rewrite Hf, (split_one_field fen Hlen).
  unfold side_suffix. destruct (isWhitesTurn (ply_or_zero ply)); reflexivity.
Qed.

Ltac calc_cases st :=
  unfold calculateMove;
  destruct (negb (isEngineReady st) || String.eqb (currentFen st) ""
            || isCalculating st)%bool;
  [reflexivity|];
  destruct (strict_eq (currentFen st) (lastCalculatedFen st));
  reflexivity.

Lemma calculateMove_currentFen (st : State) :
  currentFen (calculateMove st) = currentFen st.
Proof. calc_cases st. Qed.

Lemma calculateMove_consoleLog (st : State) :
  consoleLog (calculateMove st) = consoleLog st.
Proof. calc_cases st. Qed.

Lemma calculateMove_settings (st : State) :
  settings (calculateMove st) = settings st.
Proof. calc_cases st. Qed.

Lemma calculateMove_isEngineReady (st : State) :
  isEngineReady (calculateMove st) = isEngineReady st.
Proof. calc_cases st. Qed.

(** What an admitted submission does. *)
Lemma calculateMove_submits (st : State) :
  isEngineReady st = true ->
  isCalculating st = false ->
  currentFen st <> "" ->
  lastCalculatedFen st <> Some (currentFen st) ->
  isCalculating (calculateMove st) = true
  /\ lastCalculatedFen (calculateMove st) = Some (currentFen st)
  /\ engineInbox (calculateMove st)
     = (engineInbox st
        ++ [ ("position fen " ++ currentFen st)%string;
             go_command (settings st) ])%list.
Proof.
  intros Hr Hc Hf Hl. unfold calculateMove.
  rewrite Hr, Hc. apply String.eqb_neq in Hf. rewrite Hf. simpl.
  assert (Hs : strict_eq (currentFen st) (lastCalculatedFen st) = false).
  { unfold strict_eq. destruct (lastCalculatedFen st) as [l|]; [|reflexivity].
    apply String.eqb_neq. congruence. }
  rewrite Hs. simpl. rewrite <- app_assoc. repeat split; reflexivity.
Qed.

Lemma onSocketMessage_update (message : Frame) (fen : string) (st : State) :
  frame_type message = T_d \/ frame_type message = T_move ->
  frame_fen message = Some fen ->
  onSocketMessage message st
  = let st' := set_currentFen (trackedFen fen (frame_ply message)) st in
    if (isEngineReady st && negb (isCalculating st))%bool
    then calculateMove st' else st'.
Proof.
  intros Ht Hfen. unfold onSocketMessage. rewrite Hfen.
  destruct Ht as [Ht|Ht]; rewrite Ht; reflexivity.
Qed.

Lemma onSocketMessage_currentFen (message : Frame) (fen : string) (st : State) :
  frame_type message = T_d \/ frame_type message = T_move ->
  frame_fen message = Some fen ->
  currentFen (onSocketMessage message st)
  = trackedFen fen (frame_ply message).
Proof.
  intros Ht Hfen. rewrite (onSocketMessage_update message fen st Ht Hfen).
  cbv zeta. destruct (isEngineReady st && negb (isCalculating st))%bool;
    [rewrite calculateMove_currentFen|]; reflexivity.
Qed.

Example tracker_start_position :
  currentFen
    (onSocketMessage
       (state_update "rnbqkbnr/pppppppp/8/8/8/8/PPPPPPPP/RNBQKBNR" (Some 0))
       initialState)
  = "rnbqkbnr/pppppppp/8/8/8/8/PPPPPPPP/RNBQKBNR w - - 0 1".
Proof. reflexivity. Qed.

(** C9: a state update that carries a fen string and no ply is handled
    as ply 0: the handler does exactly what it does for ply 0, and the
    tracked position is the completion of the fen followed by " w". *)
Theorem missing_ply_is_white (message : Frame) (fen : string) (st : State) :
  frame_type message = T_d \/ frame_type message = T_move ->
  frame_fen message = Some fen ->
  frame_ply message = None ->
  onSocketMessage message st
  = onSocketMessage {| frame_type := frame_type message;
                       frame_fen := Some fen;
                       frame_ply := Some 0 |} st
  /\ currentFen (onSocketMessage message st) = completeFen (fen ++ " w")
  /\ nth_error (fields (fen ++ side_suffix (ply_or_zero (frame_ply message))))
               (List.length (fields fen)) = Some "w".
Proof.
  intros Ht Hfen Hply. split; [|split].
  - rewrite (onSocketMessage_update message fen st Ht Hfen).
    rewrite (onSocketMessage_update _ fen st); [|exact Ht|reflexivity].
    rewrite Hply. reflexivity.
  - rewrite (onSocketMessage_currentFen message fen st Ht Hfen).
    rewrite Hply. reflexivity.
  - rewrite Hply, fields_side_suffix.
    rewrite nth_error_app2, Nat.sub_diag by lia. reflexivity.
Qed.

Lemma missing_ply_is_white_witness :
  (T_move = T_d \/ T_move = T_move)
  /\ onSocketMessage (state_update "8/8/8/8/8/8/8/K6k" None) initialState
     = onSocketMessage (state_update "8/8/8/8/8/8/8/K6k" (Some 0)) initialState
  /\ currentFen (onSocketMessage (state_update "8/8/8/8/8/8/8/K6k" None)
                                 initialState)
     = "8/8/8/8/8/8/8/K6k w - - 0 1".
Proof.
  split; [right; reflexivity|].
  destruct (missing_ply_is_white (state_update "8/8/8/8/8/8/8/K6k" None)
              "8/8/8/8/8/8/8/K6k" initialState
              (or_intror eq_refl) eq_refl eq_refl) as [H1 [H2 _]].
  split; [exact H1|exact H2].
Defined.

(** The claim of C5 fails where it says the indicator is appended only
    when the partial position has none: a fen that already ends in a side
    to move gets a second one. *)
Lemma side_appended_even_when_present :
  currentFen
    (onSocketMessage (state_update "8/8/8/8/8/8/8/K6k b" (Some 0)) initialState)
  = "8/8/8/8/8/8/8/K6k b w - 0 1"
  /\ fields "8/8/8/8/8/8/8/K6k b" = [ "8/8/8/8/8/8/8/K6k"; "b" ]
  /\ currentFen
       (onSocketMessage (state_update "8/8/8/8/8/8/8/K6k b" (Some 0))
                        initialState)
     <> completeFen "8/8/8/8/8/8/8/K6k b".
Proof. split; [reflexivity|split; [reflexivity|discriminate]]. Qed.

(** C5 (amended): on every state update the tracker appends a
    side-to-move indicator derived from ply mod 2, whatever the partial
    position already holds: the tracked position is the completion of the
    fen followed by the indicator, the indicator is the field right after
    the fields of the fen, plies 0, 2, 4 give "w" and plies 1, 3, 5 give
    "b", and so do all other even and odd plies. *)
Theorem side_to_move_always_appended
  (message : Frame) (fen : string) (st : State) :
  frame_type message = T_d \/ frame_type message = T_move ->
  frame_fen message = Some fen ->
  let ply := ply_or_zero (frame_ply message) in
  currentFen (onSocketMessage message st)
  = completeFen (fen ++ side_suffix ply)
  /\ fields (fen ++ side_suffix ply)
     = (fields fen ++ [ if isWhitesTurn ply then "w" else "b" ])%list
  /\ map isWhitesTurn [ 0; 2; 4 ] = [ true; true; true ]
  /\ map isWhitesTurn [ 1; 3; 5 ] = [ false; false; false ]
  /\ isWhitesTurn ply = Z.even ply.
Proof.
  intros Ht Hfen ply. split; [|split; [|split; [|split]]].
  - apply (onSocketMessage_currentFen message fen st Ht Hfen).
  - apply fields_side_suffix.
  - reflexivity.
  - reflexivity.
  - apply isWhitesTurn_even.
Qed.

Lemma side_to_move_always_appended_witness :
  (T_move = T_d \/ T_move = T_move)
  /\ currentFen
       (onSocketMessage (state_update "8/8/8/8/8/8/8/K6k b" (Some 3))
                        initialState)
     = completeFen ("8/8/8/8/8/8/8/K6k b" ++ " b").
Proof.
  split; [right; reflexivity|].
  exact (proj1 (side_to_move_always_appended
                  (state_update "8/8/8/8/8/8/8/K6k b" (Some 3))
                  "8/8/8/8/8/8/8/K6k b" initialState
                  (or_intror eq_refl) eq_refl)).
Defined.

(** The claim of C4 fails: a state update whose descriptor has a single
    field is not rejected, and [log] is given nothing; it is completed to
    six fields and submitted to the engine. *)
Lemma one_field_descriptor_is_submitted :
  List.length (fields "8/8/8/8/8/8/8/K6k") = 1%nat
  /\ currentFen one_field_update = "8/8/8/8/8/8/8/K6k w - - 0 1"
  /\ List.length (fields (currentFen one_field_update)) = 6%nat
  /\ consoleLog one_field_update = consoleLog readyState0
  /\ engineInbox one_field_update
     = (engineInbox readyState0
        ++ [ "position fen 8/8/8/8/8/8/8/K6k w - - 0 1";
             "go depth 4 movetime 1000" ])%list.
Proof. vm_compute. repeat split; reflexivity. Qed.

(** C4 (amended): a state update whose partial descriptor has fewer than
    two fields is not rejected.  The tracker appends the side to move,
    completes the result to the six fields "<fen> <side> - - 0 1" and
    keeps it as the current position, and the position is submitted to
    the engine whenever the engine is ready, idle and was not last given
    that same position. *)
Theorem one_field_descriptor_is_completed
  (message : Frame) (fen : string) (st : State) :
  frame_type message = T_d \/ frame_type message = T_move ->
  frame_fen message = Some fen ->
  (List.length (fields fen) < 2)%nat ->
  let st' := onSocketMessage message st in
  currentFen st'
  = fen ++ side_suffix (ply_or_zero (frame_ply message)) ++ " - - 0 1"
  /\ List.length (fields (currentFen st')) = 6%nat
  /\ (isEngineReady st = true ->
      isCalculating st = false ->
      lastCalculatedFen st <> Some (currentFen st') ->
      engineInbox st'
      = (engineInbox st
         ++ [ ("position fen " ++ currentFen st')%string;
              go_command (settings st) ])%list).
Proof.
  intros Ht Hfen Hlen st'.
  assert (Hcur : currentFen st'
                 = fen ++ side_suffix (ply_or_zero (frame_ply message))
                   ++ " - - 0 1").
  { unfold st'. rewrite (onSocketMessage_currentFen message fen st Ht Hfen).
    apply trackedFen_one_field. exact Hlen. }
  split; [exact Hcur|]. split.
  - rewrite Hcur. unfold fields in *.
    unfold side_suffix.
    destruct (isWhitesTurn (ply_or_zero (frame_ply message)));
      cbn [append]; rewrite !split_app_sp, (split_one_field fen Hlen);
      reflexivity.
  - intros Hr Hc Hl.
    assert (Hcf : currentFen st' = trackedFen fen (frame_ply message)).
    { apply (onSocketMessage_currentFen message fen st Ht Hfen). }
    unfold st' in *. rewrite Hcf in *.
    rewrite (onSocketMessage_update message fen st Ht Hfen).
    cbv zeta. rewrite Hr, Hc. simpl.
    apply calculateMove_submits; simpl; try assumption.
    rewrite Hcur. apply String.eqb_neq, append_nonempty_r.
    unfold side_suffix.
    destruct (isWhitesTurn (ply_or_zero (frame_ply message))); discriminate.
Qed.

Lemma one_field_descriptor_is_completed_witness :
  (T_move = T_d \/ T_move = T_move)
  /\ (List.length (fields "8/8/8/8/8/8/8/K6k") < 2)%nat
  /\ currentFen (onSocketMessage (state_update "8/8/8/8/8/8/8/K6k" (Some 1))
                                 readyState0)
     = "8/8/8/8/8/8/8/K6k b - - 0 1".
Proof.
  split; [right; reflexivity|]. split; [simpl; lia|].
  refine (proj1 (one_field_descriptor_is_completed
                   (state_update "8/8/8/8/8/8/8/K6k" (Some 1))
                   "8/8/8/8/8/8/8/K6k" readyState0
                   (or_intror eq_refl) eq_refl _)).
  simpl. lia.
Defined.

(** ** Engine adapter: admission and deduplication *)

Lemma strict_eq_same (p : string) : strict_eq p (Some p) = true.
Proof. simpl. apply String.eqb_refl. Qed.

Lemma calculateMove_same_position (st : State) :
  lastCalculatedFen st = Some (currentFen st) -> calculateMove st = st.
Proof.
  intros Hl. unfold calculateMove. rewrite Hl, strict_eq_same.
  destruct (negb (isEngineReady st) || String.eqb (currentFen st) ""
            || isCalculating st)%bool; reflexivity.
Qed.

Lemma calculateMove_not_ready (st : State) :
  isEngineReady st = false -> calculateMove st = st.
Proof. intros H. unfold calculateMove. rewrite H. reflexivity. Qed.

Lemma calculateMove_busy (st : State) :
  isCalculating st = true -> calculateMove st = st.
Proof.
  intros H. unfold calculateMove. rewrite H, !orb_true_r. reflexivity.
Qed.

Lemma sendMove_adapter_view (move : string) (st : State) :
  adapter_view (fst (sendMove move st)) = adapter_view st.
Proof.
  unfold sendMove.
  destruct (negb (socket_open (webSocketWrapper st))); [reflexivity|].
  destruct (String.eqb move "" || (String.length move <? 4)%nat)%bool;
    [reflexivity|].
  destruct (socket_send_throws (webSocketWrapper st)); reflexivity.
Qed.

Lemma onEngineMessage_adapter_view (message : string) (now rnd : Z) (st : State) :
  adapter_view (onEngineMessage message now rnd st) = adapter_view st.
Proof.
  unfold onEngineMessage.
  destruct (includes "bestmove" message); [|reflexivity].
  cbn [bestMove set_bestMove].
  destruct (at_index (split message) 1) as [move|]; [|reflexivity].
  destruct (negb (String.eqb move "") && negb (String.eqb move "(none)"))%bool;
    [|reflexivity].
  cbn [settings log set_consoleLog set_moveHistory set_bestMove
       set_isCalculating].
  destruct (autoMove (settings st)); reflexivity.
Qed.

Lemma timerFires_adapter_view (i : nat) (st : State) :
  adapter_view (timerFires i st) = adapter_view st.
Proof.
  unfold timerFires.
  destruct (nth_error (timers st) i) as [[delay move]|]; [|reflexivity].
  change (adapter_view
            (fst (sendMove move (set_timers (remove_nth i (timers st)) st)))
          = adapter_view st).
  rewrite sendMove_adapter_view. reflexivity.
Qed.

Lemma handshake_no_submission (n : nat) (cfg : Settings) :
  filter is_submission (firstn n (handshake cfg)) = [].
Proof.
  unfold handshake.
  destruct n as [|[|[|[|[|n]]]]]; cbn -[string_of_Z]; try reflexivity.
  rewrite firstn_nil. reflexivity.
Qed.

Lemma initializeChessEngine_adapter_view (load : EngineLoad) (st : State) :
  adapter_view (initializeChessEngine load st) = adapter_view st.
Proof.
  destruct load as [|posted|]; try reflexivity.
  - unfold adapter_view. cbn -[filter string_of_Z handshake firstn].
    rewrite filter_app, handshake_no_submission, app_nil_r. reflexivity.
  - unfold adapter_view. cbn -[filter string_of_Z].
    rewrite !filter_app. cbn -[string_of_Z]. rewrite !app_nil_r. reflexivity.
Qed.

(** While the tracker stays on the position last submitted, no handler
    posts a further submission. *)
Lemma handle_keeps_adapter_view (p : string) (ev : Event) (st : State) :
  currentFen st = p ->
  lastCalculatedFen st = Some p ->
  keeps_position p ev = true ->
  adapter_view (handle ev st) = adapter_view st.
Proof.
  intros Hc Hl Hk. destruct ev; cbn [handle]; try discriminate.
  - unfold keeps_position, positionOf in Hk. unfold onSocketMessage.
    destruct (frame_type message); try reflexivity;
      destruct (frame_fen message) as [fen|]; try reflexivity;
      apply String.eqb_eq in Hk; rewrite Hk;
      assert (Hv : adapter_view (set_currentFen p st) = adapter_view st)
        by (unfold adapter_view; cbn; rewrite Hc; reflexivity);
      (destruct (isEngineReady (set_currentFen p st)
                 && negb (isCalculating (set_currentFen p st)))%bool;
       [rewrite calculateMove_same_position; [exact Hv|exact Hl]|exact Hv]).
  - apply onEngineMessage_adapter_view.
  - apply timerFires_adapter_view.
  - unfold onPlayClick. destruct (bestMove st) as [move|]; [|reflexivity].
    destruct (negb (String.eqb move "")); reflexivity.
  - reflexivity.
  - reflexivity.
  - reflexivity.
  - reflexivity.
  - apply initializeChessEngine_adapter_view.
  - reflexivity.
  - unfold onReadyState. destruct (webSocketWrapper st); reflexivity.
  - unfold onSocketClose. destruct (webSocketWrapper st) as [sock|];
      [|reflexivity].
    destruct (Nat.eqb (sockId sock) id); reflexivity.
Qed.

Lemma run_keeps_adapter_view (p : string) (evs : list Event) (st : State) :
  currentFen st = p ->
  lastCalculatedFen st = Some p ->
  forallb (keeps_position p) evs = true ->
  adapter_view (run evs st) = adapter_view st.
Proof.
  revert st. induction evs as [|ev evs IH]; intros st Hc Hl Hk;
    [reflexivity|].
  simpl in Hk. apply andb_true_iff in Hk as [Hev Hevs].
  pose proof (handle_keeps_adapter_view p ev st Hc Hl Hev) as Hv.
  cbn [run]. rewrite IH; [exact Hv| | |exact Hevs].
  - unfold adapter_view in Hv. congruence.
  - unfold adapter_view in Hv. congruence.
Qed.

Lemma run_app (evs1 evs2 : list Event) (st : State) :
  run (evs1 ++ evs2) st = run evs2 (run evs1 st).
Proof.
  revert st. induction evs1 as [|ev evs1 IH]; intros st; [reflexivity|].
  simpl. apply IH.
Qed.

Lemma submissions_adapter_view (st st' : State) :
  adapter_view st' = adapter_view st -> submissions st' = submissions st.
Proof. unfold adapter_view, submissions. intros H. congruence. Qed.

Lemma join_two_nonempty (l : list string) :
  (2 <= List.length l)%nat -> String.eqb (join l) "" = false.
Proof.
  destruct l as [|a [|b l]]; simpl; try lia. intros _.
  apply append_nonempty_r. discriminate.
Qed.

Lemma push_if_length_length (n : nat) (x : string) (l : list string) :
  (List.length l <= List.length (push_if_length n x l))%nat.
Proof.
  unfold push_if_length. destruct (Nat.eqb (List.length l) n); [|lia].
  rewrite length_app. lia.
Qed.

Lemma trackedFen_nonempty (fen : string) (ply : option Z) :
  trackedFen fen ply <> "".
Proof.
  apply String.eqb_neq. unfold trackedFen, completeFen.
  pose proof (fields_side_suffix fen (ply_or_zero ply)) as Hf.
  unfold fields in Hf.
  destruct (Nat.eqb _ 6).
  - apply append_nonempty_r. unfold side_suffix.
    destruct (isWhitesTurn (ply_or_zero ply)); discriminate.
  - apply join_two_nonempty.
    repeat (etransitivity; [|apply push_if_length_length]).
    rewrite Hf, length_app. pose proof (split_nonempty fen) as Hne.
    destruct (split fen); [congruence|]. simpl. lia.
Qed.

Lemma positionOf_update (message : Frame) (p : string) :
  positionOf message = Some p ->
  exists fen,
    (frame_type message = T_d \/ frame_type message = T_move)
    /\ frame_fen message = Some fen
    /\ p = trackedFen fen (frame_ply message).
Proof.
  unfold positionOf. intros H.
  destruct (frame_type message); try discriminate;
    destruct (frame_fen message) as [fen|]; try discriminate;
    exists fen; injection H as <-; auto.
Qed.

(** C6: [calculateMove] changes nothing when the engine is not ready,
    when a calculation is in progress, or when the current position is
    the string last submitted; hence, from a ready and idle engine that
    was not last given position [p], a state update publishing [p],
    whatever happens next short of a recalculate command or an update to
    another position, and the same update again post exactly one
    submission, that of [p]. *)
Theorem calculateMove_noop_and_dedup
  (st : State) (message : Frame) (p : string) (mid : list Event) :
  (isEngineReady st = false \/ isCalculating st = true
   \/ lastCalculatedFen st = Some (currentFen st) ->
   calculateMove st = st)
  /\ (positionOf message = Some p ->
      isEngineReady st = true ->
      isCalculating st = false ->
      lastCalculatedFen st <> Some p ->
      forallb (keeps_position p) mid = true ->
      let st' := run (EvSocketMessage message
                      :: mid ++ [ EvSocketMessage message ]) st in
      filter is_submission (engineInbox st')
      = (filter is_submission (engineInbox st)
         ++ [ ("position fen " ++ p)%string ])%list
      /\ submissions st' = S (submissions st)).
Proof.
  split.
  - intros [H|[H|H]].
    + apply calculateMove_not_ready, H.
    + apply calculateMove_busy, H.
    + apply calculateMove_same_position, H.
  - intros Hp Hr Hc Hl Hmid st'.
    destruct (positionOf_update message p Hp) as [fen [Ht [Hfen Heq]]].
    set (st1 := handle (EvSocketMessage message) st).
    assert (Hst1 : st1 = calculateMove (set_currentFen p st)).
    { unfold st1. cbn [handle].
      rewrite (onSocketMessage_update message fen st Ht Hfen).
      cbv zeta. rewrite Hr, Hc, <- Heq. reflexivity. }
    destruct (calculateMove_submits (set_currentFen p st))
      as [_ [Hlast Hinbox]]; try assumption.
    { cbn. rewrite Heq. apply trackedFen_nonempty. }
    cbn [currentFen set_currentFen engineInbox settings lastCalculatedFen]
      in Hlast, Hinbox.
    rewrite <- Hst1 in Hlast, Hinbox.
    assert (Hcur : currentFen st1 = p).
    { rewrite Hst1, calculateMove_currentFen. reflexivity. }
    assert (Hall : forallb (keeps_position p)
                     (mid ++ [ EvSocketMessage message ]) = true).
    { rewrite forallb_app, Hmid. cbn. rewrite Hp, String.eqb_refl.
      reflexivity. }
    pose proof (run_keeps_adapter_view p _ st1 Hcur Hlast Hall) as Hv.
    assert (Hsub : filter is_submission (engineInbox st')
                   = (filter is_submission (engineInbox st)
                      ++ [ ("position fen " ++ p)%string ])%list).
    { unfold adapter_view in Hv.
      assert (Hf : filter is_submission (engineInbox st')
                   = filter is_submission (engineInbox st1))
        by (unfold st'; cbn [run]; fold st1; congruence).
      rewrite Hf, Hinbox, filter_app. f_equal.
      cbn -[string_of_Z]. destruct p; reflexivity. }
    split; [exact Hsub|].
    unfold submissions. rewrite Hsub, length_app. simpl. lia.
Qed.

Lemma calculateMove_noop_and_dedup_witness :
  (lastCalculatedFen readyState0 <> Some "8/8/8/8/8/8/8/K6k w - - 0 1")
  /\ calculateMove initialState = initialState
  /\ submissions (run repeated_update readyState0)
     = S (submissions readyState0).
Proof.
  split; [discriminate|].
  destruct (calculateMove_noop_and_dedup readyState0
              (state_update "8/8/8/8/8/8/8/K6k" (Some 0))
              "8/8/8/8/8/8/8/K6k w - - 0 1"
              [ EvEngineMessage "bestmove a1a2 ponder h1h2" 0 0 ])
    as [_ H].
  destruct (calculateMove_noop_and_dedup initialState
              (state_update "8/8/8/8/8/8/8/K6k" (Some 0))
              "8/8/8/8/8/8/8/K6k w - - 0 1" [])
    as [H0 _].
  split; [apply H0; left; reflexivity|].
  apply H; try reflexivity. discriminate.
Defined.

(** ** Engine adapter: the terminal line *)

Lemma onEngineMessage_clears_flag (message : string) (now rnd : Z) (st : State) :
  includes "bestmove" message = true ->
  isCalculating (onEngineMessage message now rnd st) = false.
Proof.
  intros Hinc. unfold onEngineMessage. rewrite Hinc.
  cbn [bestMove set_bestMove].
  destruct (at_index (split message) 1) as [move|]; [|reflexivity].
  destruct (negb (String.eqb move "") && negb (String.eqb move "(none)"))%bool;
    [|reflexivity].
  cbn [settings log set_consoleLog set_moveHistory set_bestMove
       set_isCalculating].
  destruct (autoMove (settings st)); reflexivity.
Qed.

Example bestmove_none_clears_flag :
  isCalculating
    (onEngineMessage "bestmove (none)" 0 0 (set_isCalculating true readyState0))
  = false.
Proof. reflexivity. Qed.

(** C10: every engine line containing "bestmove" clears the calculating
    flag, whatever token it reports, the token "(none)" and a missing
    token included; the adapter is idle again, so the next submission
    request for a position other than the last submitted one is
    admitted. *)
Theorem bestmove_line_returns_to_idle
  (message : string) (now rnd : Z) (st : State) :
  includes "bestmove" message = true ->
  let st' := onEngineMessage message now rnd st in
  isCalculating st' = false
  /\ (isEngineReady st' = true ->
      currentFen st' <> "" ->
      lastCalculatedFen st' <> Some (currentFen st') ->
      isCalculating (calculateMove st') = true
      /\ lastCalculatedFen (calculateMove st') = Some (currentFen st')
      /\ engineInbox (calculateMove st')
         = (engineInbox st'
            ++ [ ("position fen " ++ currentFen st')%string;
                 go_command (settings st') ])%list).
Proof.
  intros Hinc st'.
  pose proof (onEngineMessage_clears_flag message now rnd st Hinc) as Hidle.
  split; [exact Hidle|].
  intros Hr Hf Hl. apply calculateMove_submits; assumption.
Qed.

Lemma bestmove_line_returns_to_idle_witness :
  includes "bestmove" "bestmove (none)" = true
  /\ isCalculating update_while_calculating = true
  /\ isCalculating
       (onEngineMessage "bestmove (none)" 0 0 update_while_calculating)
     = false
  /\ engineInbox
       (calculateMove
          (onEngineMessage "bestmove (none)" 0 0 update_while_calculating))
     = (engineInbox update_while_calculating
        ++ [ "position fen 8/8/8/8/8/8/8/K5k1 b - - 0 1";
             "go depth 4 movetime 1000" ])%list.
Proof.
  split; [vm_compute; reflexivity|]. split; [vm_compute; reflexivity|].
  assert (Hinc : includes "bestmove" "bestmove (none)" = true)
    by (vm_compute; reflexivity).
  destruct (bestmove_line_returns_to_idle "bestmove (none)" 0 0
              update_while_calculating Hinc) as [Hidle Hnext].
  split; [exact Hidle|].
  vm_compute in Hnext. vm_compute.
  destruct Hnext as [_ [_ Hinbox]];
    [reflexivity|intro Hd; discriminate Hd|intro Hd; discriminate Hd
    |exact Hinbox].
Defined.

(** ** The token "(none)" *)

(** The automatic path does not schedule the token "(none)", but the
    handler has already stored it. *)
Lemma onEngineMessage_none (message : string) (now rnd : Z) (st : State) :
  includes "bestmove" message = true ->
  at_index (split message) 1 = Some "(none)" ->
  timers (onEngineMessage message now rnd st) = timers st
  /\ socketOutbox (onEngineMessage message now rnd st) = socketOutbox st
  /\ bestMove (onEngineMessage message now rnd st) = Some "(none)".
Proof.
  intros Hinc Htok. unfold onEngineMessage. rewrite Hinc.
  cbn [bestMove set_bestMove]. rewrite Htok. cbn.
  repeat split; reflexivity.
Qed.

(** C1 (the code departs from it): after the line "bestmove (none)" the
    stored move is the string "(none)", not null, so a press of the play
    button schedules it and the expiring timer writes a move frame
    carrying "(none)" to the open socket.  Only the automatic path holds
    the token back. *)
Theorem none_token_is_stored_and_sent_by_hand :
  bestMove (handle (EvEngineMessage "bestmove (none)" 0 0) readyState0)
  = Some "(none)"
  /\ timers (handle (EvEngineMessage "bestmove (none)" 0 0)
                    (onToggleAutoMove readyState0)) = []
  /\ timers (run [ EvEngineMessage "bestmove (none)" 0 0; EvPlayClick 0 ]
                 readyState0) = [ (500, "(none)") ]
  /\ socketOutbox (run none_then_play readyState0) = [ move_frame "(none)" ].
Proof. vm_compute. repeat split; reflexivity. Qed.

(** ** Dispatch *)

Lemma sendMove_timers (move : string) (st : State) :
  timers (fst (sendMove move st)) = timers st.
Proof.
  unfold sendMove.
  destruct (negb (socket_open (webSocketWrapper st))); [reflexivity|].
  destruct (String.eqb move "" || (String.length move <? 4)%nat)%bool;
    [reflexivity|].
  destruct (socket_send_throws (webSocketWrapper st)); reflexivity.
Qed.

Lemma sendMove_success (move : string) (st : State) :
  snd (sendMove move st) = true ->
  bestMove (fst (sendMove move st)) = None
  /\ socketOutbox (fst (sendMove move st))
     = (socketOutbox st ++ [ move_frame move ])%list
  /\ consoleLog (fst (sendMove move st))
     = (consoleLog st ++ [ ("Move sent: " ++ move)%string ])%list.
Proof.
  unfold sendMove.
  destruct (negb (socket_open (webSocketWrapper st))); [discriminate|].
  destruct (String.eqb move "" || (String.length move <? 4)%nat)%bool;
    [discriminate|].
  destruct (socket_send_throws (webSocketWrapper st)); [discriminate|].
  intros _. repeat split; reflexivity.
Qed.

Lemma sendMove_failure (move : string) (st : State) :
  snd (sendMove move st) = false ->
  bestMove (fst (sendMove move st)) = bestMove st
  /\ socketOutbox (fst (sendMove move st)) = socketOutbox st
  /\ (exists line,
        consoleLog (fst (sendMove move st)) = (consoleLog st ++ [ line ])%list
        \/ consoleErrors (fst (sendMove move st))
           = (consoleErrors st ++ [ line ])%list).
Proof.
  unfold sendMove.
  destruct (negb (socket_open (webSocketWrapper st))).
  { intros _. repeat split; eexists; left; reflexivity. }
  destruct (String.eqb move "" || (String.length move <? 4)%nat)%bool.
  { intros _. repeat split; eexists; left; reflexivity. }
  destruct (socket_send_throws (webSocketWrapper st)); [|discriminate].
  intros _. repeat split; eexists; right; reflexivity.
Qed.

(** The claim of C2 fails: a send on a closed connection returns false
    and leaves the stored move in place. *)
Lemma failed_send_keeps_bestMove :
  bestMove (run send_after_close readyState0) = Some "e2e4"
  /\ snd (sendMove "e2e4"
            (run [ EvEngineMessage "bestmove e2e4 ponder e7e5" 0 0;
                   EvPlayClick 0; EvSocketClose 0 ] readyState0)) = false
  /\ bestMove (run send_after_close readyState0) <> None.
Proof. vm_compute. repeat split; try reflexivity. discriminate. Qed.

Lemma timerFires_pending (i : nat) (delay : Z) (move : string) (st : State) :
  nth_error (timers st) i = Some (delay, move) ->
  timerFires i st
  = updateStatusDisplay "Move sent"
      (fst (sendMove move (set_timers (remove_nth i (timers st)) st))).
Proof. intros H. unfold timerFires. rewrite H. reflexivity. Qed.

(** C2 (amended): when the timer of a scheduled dispatch expires and
    [sendMove] is invoked, the stored best move is cleared if the send
    succeeds; when the send fails (no open connection, a move shorter
    than four characters, or [send] raising) the failure is reported by
    one log or error line, nothing is written to the socket, the stored
    best move is left as it was, and in both cases the expired timer is
    removed and none is armed, so nothing is retried. *)
Theorem expired_timer_clears_on_success_only
  (i : nat) (delay : Z) (move : string) (st : State) :
  nth_error (timers st) i = Some (delay, move) ->
  let st' := timerFires i st in
  let ok := snd (sendMove move st) in
  timers st' = remove_nth i (timers st)
  /\ (ok = true ->
      bestMove st' = None
      /\ socketOutbox st' = (socketOutbox st ++ [ move_frame move ])%list)
  /\ (ok = false ->
      bestMove st' = bestMove st
      /\ socketOutbox st' = socketOutbox st
      /\ exists line,
           consoleLog st' = (consoleLog st ++ [ line ])%list
           \/ consoleErrors st' = (consoleErrors st ++ [ line ])%list).
Proof.
  intros Hpending st' ok.
  set (st1 := set_timers (remove_nth i (timers st)) st).
  assert (Hst' : st' = updateStatusDisplay "Move sent" (fst (sendMove move st1)))
    by apply (timerFires_pending i delay move st Hpending).
  assert (Hok : ok = snd (sendMove move st1)).
  { unfold ok, sendMove. cbn [st1 webSocketWrapper set_timers].
    destruct (negb (socket_open (webSocketWrapper st))); [reflexivity|].
    destruct (String.eqb move "" || (String.length move <? 4)%nat)%bool;
      [reflexivity|].
    destruct (socket_send_throws (webSocketWrapper st)); reflexivity. }
  rewrite Hst', Hok. split; [|split].
  - change (timers (fst (sendMove move st1)) = remove_nth i (timers st)).
    rewrite sendMove_timers. reflexivity.
  - intros Htrue. destruct (sendMove_success move st1 Htrue) as [Hb [Ho _]].
    split; [exact Hb|exact Ho].
  - intros Hfalse.
    destruct (sendMove_failure move st1 Hfalse) as [Hb [Ho [line Hline]]].
    split; [exact Hb|]. split; [exact Ho|]. exists line. exact Hline.
Qed.

Lemma expired_timer_clears_on_success_only_witness :
  nth_error
    (timers (run [ EvEngineMessage "bestmove e2e4 ponder e7e5" 0 0;
                   EvPlayClick 0 ] readyState0)) 0
  = Some (500, "e2e4")
  /\ timers (run [ EvEngineMessage "bestmove e2e4 ponder e7e5" 0 0;
                   EvPlayClick 0; EvTimer 0 ] readyState0) = [].
Proof.
  split; [reflexivity|].
  exact (proj1 (expired_timer_clears_on_success_only 0 500 "e2e4"
                  (run [ EvEngineMessage "bestmove e2e4 ponder e7e5" 0 0;
                         EvPlayClick 0 ] readyState0) eq_refl)).
Defined.

Example successful_send_clears :
  bestMove (run [ EvEngineMessage "bestmove e2e4 ponder e7e5" 0 0;
                  EvPlayClick 0; EvTimer 0 ] readyState0) = None
  /\ socketOutbox (run [ EvEngineMessage "bestmove e2e4 ponder e7e5" 0 0;
                         EvPlayClick 0; EvTimer 0 ] readyState0)
     = [ move_frame "e2e4" ].
Proof. vm_compute. split; reflexivity. Qed.

(** ** Rounding to a double *)

Lemma round_nonneg_small (z : Z) : z < 2 ^ 53 -> round_nonneg z = z.
Proof.
  intros Hz. unfold round_nonneg.
  destruct (z <? 2 ^ 53) eqn:H; [reflexivity|].
  apply Z.ltb_ge in H. lia.
Qed.

(** Beyond [2^53] the result is a significand [q] of 53 bits times the
    spacing [p] of the doubles around [z], at most half a spacing away. *)
Lemma round_nonneg_large (z : Z) :
  2 ^ 53 <= z ->
  exists e q,
    1 <= e
    /\ 2 ^ 52 <= q <= 2 ^ 53
    /\ round_nonneg z = q * 2 ^ e
    /\ 2 ^ 52 * 2 ^ e <= z < 2 ^ 53 * 2 ^ e
    /\ 2 * Z.abs (q * 2 ^ e - z) <= 2 ^ e.
Proof.
  intros Hz.
  assert (H53 : 0 < 2 ^ 53) by reflexivity.
  assert (Hpos : 0 < z) by lia.
  pose proof (Z.log2_spec z Hpos) as [Hlo Hhi].
  assert (Hb : 53 <= Z.log2 z).
  { apply Z.log2_le_pow2; lia. }
  set (e := Z.log2 z - 52).
  assert (He : 1 <= e) by (unfold e; lia).
  assert (Hp : 0 < 2 ^ e) by (apply Z.pow_pos_nonneg; lia).
  assert (Hlo' : 2 ^ 52 * 2 ^ e <= z).
  { rewrite <- Z.pow_add_r by lia. replace (52 + e) with (Z.log2 z)
      by (unfold e; lia). exact Hlo. }
  assert (Hhi' : z < 2 ^ 53 * 2 ^ e).
  { rewrite <- Z.pow_add_r by lia. replace (53 + e) with (Z.succ (Z.log2 z))
      by (unfold e; lia). exact Hhi. }
  pose proof (Z.div_mod z (2 ^ e) ltac:(lia)) as Hdm.
  pose proof (Z.mod_pos_bound z (2 ^ e) Hp) as Hr.
  assert (Hq : 2 ^ 52 <= z / 2 ^ e < 2 ^ 53).
  { split.
    - apply Z.div_le_lower_bound; lia.
    - apply Z.div_lt_upper_bound; lia. }
  exists e.
  unfold round_nonneg.
  destruct (z <? 2 ^ 53) eqn:Hsmall; [apply Z.ltb_lt in Hsmall; lia|].
  fold e. cbv zeta.
  set (p := 2 ^ e) in *. set (q := z / p) in *. set (r := z mod p) in *.
  destruct (2 * r <? p) eqn:H1; [apply Z.ltb_lt in H1|apply Z.ltb_ge in H1].
  { exists q. repeat split; try lia. }
  destruct (p <? 2 * r) eqn:H2; [apply Z.ltb_lt in H2|apply Z.ltb_ge in H2].
  { exists (q + 1). repeat split; try lia. }
  destruct (Z.even q).
  { exists q. repeat split; try lia. }
  { exists (q + 1). repeat split; try lia. }
Qed.

Lemma round_nonneg_nonneg (z : Z) : 0 <= z -> 0 <= round_nonneg z.
Proof.
  intros Hz. destruct (Z_lt_le_dec z (2 ^ 53)) as [H|H].
  - rewrite round_nonneg_small by exact H. exact Hz.
  - destruct (round_nonneg_large z H) as [e [q [He [Hq [Hr _]]]]].
    rewrite Hr. assert (0 < 2 ^ e) by (apply Z.pow_pos_nonneg; lia).
    assert (0 < 2 ^ 52) by reflexivity. nia.
Qed.

Lemma round_nonneg_at_least (z c : Z) :
  c <= z -> c <= 2 ^ 53 -> c <= round_nonneg z.
Proof.
  intros Hz Hc. destruct (Z_lt_le_dec z (2 ^ 53)) as [H|H].
  - rewrite round_nonneg_small by exact H. exact Hz.
  - destruct (round_nonneg_large z H) as [e [q [He [Hq [Hr _]]]]].
    rewrite Hr.
    assert (2 <= 2 ^ e).
    { change 2 with (2 ^ 1) at 1. apply Z.pow_le_mono_r; lia. }
    assert (0 < 2 ^ 52) by reflexivity.
    assert (2 ^ 53 = 2 * 2 ^ 52) by reflexivity. nia.
Qed.

Lemma representable_round (z : Z) : 0 <= z -> representable (round_nonneg z).
Proof.
  intros Hz. destruct (Z_lt_le_dec z (2 ^ 53)) as [H|H].
  - rewrite round_nonneg_small by exact H. exists z, 0.
    repeat split; try lia.
  - destruct (round_nonneg_large z H) as [e [q [He [Hq [Hr _]]]]].
    exists q, e. repeat split; try lia.
Qed.

Lemma representable_scale (a : Z) :
  representable a -> representable (2 ^ 53 * a).
Proof.
  intros [m [j [Hm [Hj Ha]]]]. exists m, (j + 53).
  repeat split; try lia. rewrite Ha, Z.pow_add_r by lia. lia.
Qed.

(** Rounding never steps over a double. *)
Lemma round_nonneg_le_representable (n a : Z) :
  0 <= n <= a -> representable a -> round_nonneg n <= a.
Proof.
  intros Hn [m [j [Hm [Hj Ha]]]].
  destruct (Z_lt_le_dec n (2 ^ 53)) as [H|H].
  { rewrite round_nonneg_small by exact H. lia. }
  destruct (round_nonneg_large n H) as [e [q [He [Hq [Hr [Hb Herr]]]]]].
  rewrite Hr.
  assert (Hp : 0 < 2 ^ e) by (apply Z.pow_pos_nonneg; lia).
  assert (Hpj : 0 < 2 ^ j) by (apply Z.pow_pos_nonneg; lia).
  destruct (Z_le_gt_dec e j) as [Hej|Hej].
  - (* [a] is a multiple of the spacing *)
    assert (Hmul : a = (m * 2 ^ (j - e)) * 2 ^ e).
    { rewrite Ha, <- Z.mul_assoc, <- Z.pow_add_r by lia.
      replace (j - e + e) with j by lia. reflexivity. }
    set (c := m * 2 ^ (j - e)) in *.
    destruct (Z_le_gt_dec q c) as [Hqc|Hqc]; [nia|].
    exfalso. assert (c + 1 <= q) by lia.
    assert ((c + 1) * 2 ^ e <= q * 2 ^ e) by nia.
    lia.
  - (* [a] is below the binade of [n] *)
    assert (Hje : 2 * 2 ^ j <= 2 ^ e).
    { rewrite <- Z.pow_succ_r by lia. apply Z.pow_le_mono_r; lia. }
    assert (0 < 2 ^ 52) by reflexivity.
    assert (2 ^ 53 = 2 * 2 ^ 52) by reflexivity.
    assert (Hle : a <= 2 ^ 52 * 2 ^ e) by nia.
    assert (Hn' : n = 2 ^ 52 * 2 ^ e) by lia.
    assert (q = 2 ^ 52) by nia.
    nia.
Qed.

(** The product of a draw below one and a span stays below the span. *)
Lemma round_product_below (k span : Z) :
  0 <= k < 2 ^ 53 -> 0 < span <= 2 ^ 53 ->
  round_nonneg (k * span) < 2 ^ 53 * span.
Proof.
  intros Hk Hs.
  assert (H53 : 0 < 2 ^ 53) by reflexivity.
  assert (H52 : 0 < 2 ^ 52) by reflexivity.
  assert (H5352 : 2 ^ 53 = 2 * 2 ^ 52) by reflexivity.
  pose proof (Z.log2_spec span ltac:(lia)) as [Hlo Hhi].
  pose proof (Z.log2_nonneg span) as Hc.
  set (c := Z.log2 span) in *.
  rewrite Z.pow_succ_r in Hhi by lia.
  assert (HC : 0 < 2 ^ c) by (apply Z.pow_pos_nonneg; lia).
  destruct (Z.eq_dec span (2 ^ c)) as [Heq|Hneq].
  { (* a power of two: the product is a double *)
    assert (Hrep : representable (k * span)).
    { exists k, c. rewrite Heq. repeat split; lia. }
    pose proof (round_nonneg_le_representable (k * span) (k * span)
                  ltac:(nia) Hrep).
    nia. }
  destruct (Z_lt_le_dec (k * span) (2 ^ 53)) as [H|H].
  { rewrite round_nonneg_small by exact H. nia. }
  destruct (round_nonneg_large (k * span) H)
    as [e [q [He [Hq [Hr [Hb Herr]]]]]].
  rewrite Hr.
  assert (Hp : 0 < 2 ^ e) by (apply Z.pow_pos_nonneg; lia).
  assert (Hn : k * span <= 2 ^ 53 * span - span) by nia.
  destruct (Z_le_gt_dec e c) as [Hec|Hec].
  - assert (2 ^ e <= 2 ^ c) by (apply Z.pow_le_mono_r; lia). nia.
  - destruct (Z.eq_dec e (c + 1)) as [He1|He1].
    + assert (Hpe : 2 ^ e = 2 * 2 ^ c).
      { rewrite He1, Z.pow_add_r by lia. change (2 ^ 1) with 2. lia. }
      lia.
    + exfalso.
      assert (Hpe : 4 * 2 ^ c <= 2 ^ e).
      { change 4 with (2 ^ 2). rewrite <- Z.pow_add_r by lia.
        apply Z.pow_le_mono_r; lia. }
      nia.
Qed.

(** Against a span that was itself rounded from the difference [d], the
    product stays within [d]. *)
Lemma round_product_within (k d : Z) :
  0 <= k < 2 ^ 53 -> 0 < d ->
  round_nonneg (k * round_nonneg d) <= 2 ^ 53 * d.
Proof.
  intros Hk Hd.
  assert (H53 : 0 < 2 ^ 53) by reflexivity.
  assert (H52 : 0 < 2 ^ 52) by reflexivity.
  assert (H5352 : 2 ^ 53 = 2 * 2 ^ 52) by reflexivity.
  pose proof (round_nonneg_nonneg d ltac:(lia)) as Hs0.
  pose proof (representable_round d ltac:(lia)) as Hsrep.
  destruct (Z_le_gt_dec (round_nonneg d) d) as [Hsd|Hsd].
  { (* rounded down, or exact *)
    pose proof (round_nonneg_le_representable
                  (k * round_nonneg d) (2 ^ 53 * round_nonneg d)
                  ltac:(nia) (representable_scale _ Hsrep)).
    nia. }
  (* rounded up *)
  destruct (Z_lt_le_dec d (2 ^ 53)) as [Hsmall|Hbig].
  { rewrite round_nonneg_small in Hsd by exact Hsmall. lia. }
  destruct (round_nonneg_large d Hbig)
    as [g [qd [Hg [Hqd [Hs [Hbd Herrd]]]]]].
  set (s := round_nonneg d) in *.
  assert (HG : 0 < 2 ^ g) by (apply Z.pow_pos_nonneg; lia).
  destruct (Z_lt_le_dec (k * s) (2 ^ 53)) as [Hn|Hn].
  { rewrite round_nonneg_small by exact Hn. nia. }
  destruct (round_nonneg_large (k * s) Hn)
    as [e [q [He [Hq [Hr [Hb Herr]]]]]].
  rewrite Hr.
  assert (Hp : 0 < 2 ^ e) by (apply Z.pow_pos_nonneg; lia).
  assert (Hks : k * s <= 2 ^ 53 * s - s) by nia.
  assert (Hsg : s - d < 2 ^ g) by lia.
  assert (Hqd' : 2 ^ 52 + 1 <= qd) by nia.
  destruct (Z_le_gt_dec e (g + 52)) as [Heg|Heg].
  - assert (Hpe : 2 ^ e <= 2 ^ 52 * 2 ^ g).
    { rewrite <- Z.pow_add_r by lia. apply Z.pow_le_mono_r; lia. }
    nia.
  - destruct (Z.eq_dec e (g + 53)) as [He1|He1].
    + assert (Hpe : 2 ^ e = 2 ^ 53 * 2 ^ g).
      { rewrite He1, Z.pow_add_r by lia. lia. }
      rewrite Hpe in *.
      assert (Hlt : q * (2 ^ 53 * 2 ^ g) < 2 ^ 53 * s) by lia.
      rewrite Hs in Hlt.
      assert (Hqq : q < qd) by nia.
      assert (q * (2 ^ 53 * 2 ^ g) <= 2 ^ 53 * (s - 2 ^ g)).
      { rewrite Hs. nia. }
      nia.
    + exfalso.
      assert (Hpe : 2 ^ 54 * 2 ^ g <= 2 ^ e).
      { rewrite <- Z.pow_add_r by lia. apply Z.pow_le_mono_r; lia. }
      assert (2 ^ 54 = 4 * 2 ^ 52) by reflexivity.
      assert (s <= 2 ^ 53 * 2 ^ g) by (rewrite Hs; nia).
      nia.
Qed.

Lemma to_double_small (z : Z) : - 2 ^ 53 < z < 2 ^ 53 -> to_double z = z.
Proof.
  intros Hz. unfold to_double.
  destruct (z <? 0) eqn:H; [apply Z.ltb_lt in H|apply Z.ltb_ge in H].
  - rewrite round_nonneg_small by lia. lia.
  - apply round_nonneg_small. lia.
Qed.

Lemma to_double_nonneg (z : Z) : 0 <= z -> to_double z = round_nonneg z.
Proof.
  intros Hz. unfold to_double.
  destruct (z <? 0) eqn:H; [apply Z.ltb_lt in H; lia|reflexivity].
Qed.

Lemma to_double_nonpos (z : Z) : z <= 0 -> to_double z = - round_nonneg (- z).
Proof.
  intros Hz. unfold to_double.
  destruct (z <? 0) eqn:H; [reflexivity|].
  apply Z.ltb_ge in H. assert (z = 0) by lia. subst z. reflexivity.
Qed.

Lemma to_double_at_least (z c : Z) :
  0 <= c <= z -> c <= 2 ^ 53 -> c <= to_double z.
Proof.
  intros Hz Hc. rewrite to_double_nonneg by lia.
  apply round_nonneg_at_least; lia.
Qed.

(** ** Delay settings *)

(** A write of the maximum delay restores the timing invariant. *)
Lemma onMaxDelayChange_delays_ok (parsed : option Z) (st : State) :
  - 2 ^ 53 < minDelay (settings st) + 100 < 2 ^ 53 ->
  delays_ok (settings (onMaxDelayChange parsed st)).
Proof.
  intros Hsafe. unfold delays_ok, onMaxDelayChange.
  cbn [settings set_settings maxDelay minDelay set_maxDelay].
  rewrite (to_double_small _ Hsafe). lia.
Qed.

Lemma onMinDelayChange_at_least_100 (parsed : option Z) (st : State) :
  100 <= minDelay (settings (onMinDelayChange parsed st)).
Proof. unfold onMinDelayChange. cbn. lia. Qed.

(** C7 (the code departs from it): the handler of the minimum delay
    clamps the new value to at least 100 and leaves the maximum alone, so
    from the default settings a minimum of 3000 is stored next to the
    maximum of 2000, and the scheduler then computes a delay from that
    pair: with the draw one half, 2500.  The handler of the maximum delay
    does clamp against the minimum. *)
Theorem min_delay_write_breaks_invariant :
  minDelay (settings (run raise_min_delay initialState)) = 3000
  /\ maxDelay (settings (run raise_min_delay initialState)) = 2000
  /\ ~ delays_ok (settings (run raise_min_delay initialState))
  /\ computeDelay (settings (run raise_min_delay initialState)) half = 2500
  /\ timers (sendMoveWithDelay "e2e4" half (run raise_min_delay initialState))
     = [ (2500, "e2e4") ]
  /\ delays_ok (settings (run (raise_min_delay ++ [ EvMaxDelayChange (Some 2000) ])
                              initialState)).
Proof.
  vm_compute. repeat split; try reflexivity.
  - intros H. apply H. reflexivity.
  - discriminate.
Qed.

(** ** Dispatch delay *)

Lemma floor_random_times_bounds (rnd span : Z) :
  is_random rnd -> 0 < span <= 2 ^ 53 ->
  0 <= floor_random_times rnd span < span.
Proof.
  unfold is_random, floor_random_times, random_denominator.
  intros Hr Hs.
  assert (Hd : 0 < 2 ^ 53) by reflexivity.
  rewrite to_double_nonneg by nia.
  pose proof (round_product_below rnd span Hr Hs) as Hup.
  pose proof (round_nonneg_nonneg (rnd * span) ltac:(nia)) as Hlo.
  split.
  - apply Z.div_pos; [exact Hlo|exact Hd].
  - apply Z.div_lt_upper_bound; [exact Hd|exact Hup].
Qed.

Lemma floor_random_times_zero (rnd : Z) : floor_random_times rnd 0 = 0.
Proof. unfold floor_random_times. rewrite Z.mul_0_r. reflexivity. Qed.

(** Within the integers a double holds exactly, a span above zero gives
    a delay from the minimum up to, not including, the maximum. *)
Lemma computeDelay_in_interval (cfg : Settings) (rnd : Z) :
  is_random rnd ->
  humanLikeTiming cfg = true ->
  0 <= minDelay cfg ->
  maxDelay cfg <= 2 ^ 53 ->
  minDelay cfg < maxDelay cfg ->
  minDelay cfg <= computeDelay cfg rnd < maxDelay cfg.
Proof.
  intros Hrnd Hh Hmin Hmax Hlt. unfold computeDelay. rewrite Hh.
  assert (Hspan : to_double (maxDelay cfg - minDelay cfg)
                  = maxDelay cfg - minDelay cfg).
  { destruct (Z.eq_dec (maxDelay cfg - minDelay cfg) (2 ^ 53)) as [He|He].
    - rewrite He. reflexivity.
    - apply to_double_small. lia. }
  rewrite Hspan.
  pose proof (floor_random_times_bounds rnd (maxDelay cfg - minDelay cfg)
                Hrnd ltac:(lia)) as Hf.
  rewrite to_double_small by lia. lia.
Qed.

(** The claim of C8 fails when the two delays are equal, which the
    stated premise (maximum at least the minimum) allows and the panel
    can store: the delay is the minimum, and the interval is empty.  It
    fails also beyond [2^53], where the sum is rounded: with the delays
    [2^53 + 2] and [2^53 + 4] and the draw one half the delay is the
    maximum itself. *)
Lemma delays_leave_interval :
  humanLikeTiming (settings (run equal_delays initialState)) = true
  /\ maxDelay (settings (run equal_delays initialState))
     >= minDelay (settings (run equal_delays initialState))
  /\ computeDelay (settings (run equal_delays initialState)) half = 2000
  /\ ~ (minDelay (settings (run equal_delays initialState))
        <= computeDelay (settings (run equal_delays initialState)) half
        < maxDelay (settings (run equal_delays initialState)))
  /\ humanLikeTiming (settings (run huge_delays initialState)) = true
  /\ minDelay (settings (run huge_delays initialState)) = 2 ^ 53 + 2
  /\ maxDelay (settings (run huge_delays initialState)) = 2 ^ 53 + 4
  /\ computeDelay (settings (run huge_delays initialState)) half = 2 ^ 53 + 4
  /\ ~ (minDelay (settings (run huge_delays initialState))
        <= computeDelay (settings (run huge_delays initialState)) half
        < maxDelay (settings (run huge_delays initialState))).
Proof.
  vm_compute. repeat split; try reflexivity.
  - discriminate.
  - intros [_ H]. discriminate H.
  - intros [_ H]. discriminate H.
Qed.

(** C8 (amended): a scheduled dispatch is armed with the computed delay;
    with humanLikeTiming enabled, the two delays within the integers a
    double holds exactly (from 0 to 2^53) and the maximum strictly above
    the minimum, that delay is an integer in the half-open interval from
    the minimum to the maximum; with the two delays equal it is the
    minimum; with humanLikeTiming disabled it is always exactly the
    minimum. *)
Theorem dispatch_delay_bounds
  (move : string) (rnd : Z) (st : State) :
  is_random rnd ->
  let cfg := settings st in
  let delay := computeDelay cfg rnd in
  timers (sendMoveWithDelay move rnd st) = (timers st ++ [ (delay, move) ])%list
  /\ (humanLikeTiming cfg = true ->
      0 <= minDelay cfg ->
      maxDelay cfg <= 2 ^ 53 ->
      maxDelay cfg > minDelay cfg ->
      minDelay cfg <= delay < maxDelay cfg)
  /\ (humanLikeTiming cfg = true ->
      0 <= minDelay cfg ->
      maxDelay cfg <= 2 ^ 53 ->
      maxDelay cfg = minDelay cfg ->
      delay = minDelay cfg)
  /\ (humanLikeTiming cfg = false -> delay = minDelay cfg).
Proof.
  intros Hrnd cfg delay. split; [reflexivity|].
  unfold delay. split; [|split].
  - intros Hh Hmin Hmax Hgt.
    apply computeDelay_in_interval; try assumption. lia.
  - intros Hh Hmin Hmax Heq. unfold computeDelay.
    rewrite Hh, Heq, Z.sub_diag.
    change (to_double 0) with 0. rewrite floor_random_times_zero.
    destruct (Z.eq_dec (minDelay cfg) (2 ^ 53)) as [He|He].
    + rewrite He. reflexivity.
    + apply to_double_small. cbn [Z.add]. lia.
  - intros Hh. unfold computeDelay. rewrite Hh. reflexivity.
Qed.

Lemma dispatch_delay_bounds_witness :
  is_random half
  /\ humanLikeTiming (settings (onToggleHumanTiming initialState)) = true
  /\ 0 <= minDelay (settings (onToggleHumanTiming initialState))
  /\ maxDelay (settings (onToggleHumanTiming initialState)) <= 2 ^ 53
  /\ maxDelay (settings (onToggleHumanTiming initialState))
     > minDelay (settings (onToggleHumanTiming initialState))
  /\ 500 <= computeDelay (settings (onToggleHumanTiming initialState)) half
     < 2000.
Proof.
  assert (Hr : is_random half) by (unfold is_random; vm_compute; split; congruence).
  split; [exact Hr|]. split; [reflexivity|].
  split; [simpl; lia|]. split; [vm_compute; discriminate|].
  split; [reflexivity|].
  destruct (dispatch_delay_bounds "e2e4" half
              (onToggleHumanTiming initialState) Hr) as [_ [H _]].
  apply H; [reflexivity|simpl; lia|vm_compute; discriminate|reflexivity].
Defined.

Example half_draw_delay :
  computeDelay (settings (onToggleHumanTiming initialState)) half = 1250.
Proof. reflexivity. Qed.

(** * Further properties of the code *)

(** ** FEN completion on every input *)

Lemma string_app_assoc (a b c : string) : (a ++ b) ++ c = a ++ b ++ c.
Proof. induction a as [|x a IH]; simpl; [reflexivity|]. rewrite IH. reflexivity. Qed.

Lemma string_app_nil_r (a : string) : a ++ "" = a.
Proof. induction a as [|x a IH]; simpl; [reflexivity|]. rewrite IH. reflexivity. Qed.

Lemma string_length_app (a b : string) :
  String.length (a ++ b) = (String.length a + String.length b)%nat.
Proof. induction a as [|x a IH]; simpl; [reflexivity|]. rewrite IH. reflexivity. Qed.

Lemma join_app (l t : list string) :
  l <> [] -> t <> [] -> join (l ++ t) = join l ++ " " ++ join t.
Proof.
  induction l as [|x l IH]; [congruence|]. intros _ Ht.
  destruct l as [|y l].
  - simpl app. rewrite join_cons by exact Ht. reflexivity.
  - change ((x :: y :: l) ++ t)%list with (x :: ((y :: l) ++ t))%list.
    rewrite join_cons by discriminate.
    rewrite IH by (discriminate || exact Ht).
    rewrite (join_cons x (y :: l)) by discriminate.
    rewrite !string_app_assoc. reflexivity.
Qed.

(** The text [completeFen] adds after a descriptor of [n] fields. *)
Lemma completeFen_unchanged (s : string) :
  ~ (2 <= List.length (split s) <= 5)%nat -> completeFen s = s.
Proof.
  intros Hn. unfold completeFen.
  destruct (Nat.eqb (List.length (split s)) 6) eqn:H6; [reflexivity|].
  apply Nat.eqb_neq in H6.
  unfold push_if_length.
  assert (H2 : Nat.eqb (List.length (split s)) 2 = false)
    by (apply Nat.eqb_neq; lia).
  rewrite H2.
  assert (H3 : Nat.eqb (List.length (split s)) 3 = false)
    by (apply Nat.eqb_neq; lia).
  rewrite H3.
  assert (H4 : Nat.eqb (List.length (split s)) 4 = false)
    by (apply Nat.eqb_neq; lia).
  rewrite H4.
  assert (H5 : Nat.eqb (List.length (split s)) 5 = false)
    by (apply Nat.eqb_neq; lia).
  rewrite H5. apply join_split.
Qed.

Lemma completeFen_join (s : string) :
  (2 <= List.length (split s) <= 5)%nat ->
  completeFen s
  = join (split s ++ skipn (List.length (split s) - 2) fen_defaults).
Proof.
  intros Hlen. unfold completeFen, push_if_length, fen_defaults.
  destruct (split s) as [|a [|b [|c [|d [|e [|f l]]]]]];
    simpl in Hlen; try lia; reflexivity.
Qed.

(** X1: on every string, [completeFen] returns its input followed by the
    text of the defaults that were missing: " - - 0 1" after two fields,
    " - 0 1" after three, " 0 1" after four, " 1" after five, and nothing
    after one field, six fields or more; the input is never rewritten. *)
Theorem completeFen_appends_missing_defaults (s : string) :
  completeFen s
  = s ++ match List.length (fields s) with
         | 2%nat => " - - 0 1"
         | 3%nat => " - 0 1"
         | 4%nat => " 0 1"
         | 5%nat => " 1"
         | _ => ""
         end.
Proof.
  unfold fields.
  destruct (Nat.le_gt_cases 2 (List.length (split s))) as [H2|H2];
    [destruct (Nat.le_gt_cases (List.length (split s)) 5) as [H5|H5]|].
  - rewrite completeFen_join by lia.
    rewrite join_app;
      [|apply split_nonempty
       |unfold fen_defaults;
        destruct (List.length (split s)) as [|[|[|[|[|[|n]]]]]];
        try (exfalso; lia); discriminate].
    rewrite join_split. f_equal.
    unfold fen_defaults.
    destruct (List.length (split s)) as [|[|[|[|[|[|n]]]]]];
      try (exfalso; lia); reflexivity.
  - rewrite completeFen_unchanged by lia.
    destruct (List.length (split s)) as [|[|[|[|[|[|n]]]]]];
      try (exfalso; lia); symmetry; apply string_app_nil_r.
  - rewrite completeFen_unchanged by lia.
    destruct (List.length (split s)) as [|[|n]];
      try (exfalso; lia); symmetry; apply string_app_nil_r.
Qed.

(** X2: completing is idempotent on every string, whatever its number
    of fields. *)
Theorem completeFen_idempotent (s : string) :
  completeFen (completeFen s) = completeFen s.
Proof.
  destruct (Nat.le_gt_cases 2 (List.length (split s))) as [H2|H2];
    [destruct (Nat.le_gt_cases (List.length (split s)) 6) as [H6|H6]|].
  - apply completeFen_six.
    rewrite completeFen_fields, length_app, length_skipn by lia.
    unfold fen_defaults. cbn [List.length]. lia.
  - rewrite (completeFen_unchanged s) by lia. apply completeFen_unchanged. lia.
  - rewrite (completeFen_unchanged s) by lia. apply completeFen_unchanged. lia.
Qed.

(** X3: the position the tracker publishes for a fen of [k] fields has
    six fields when [k] is at most five and [k + 1] fields beyond that,
    and field [k] (counting from 0) is always the derived side to move. *)
Theorem trackedFen_field_count (fen : string) (ply : option Z) :
  List.length (fields (trackedFen fen ply))
  = Nat.max 6 (S (List.length (fields fen)))
  /\ nth_error (fields (trackedFen fen ply)) (List.length (fields fen))
     = Some (if isWhitesTurn (ply_or_zero ply) then "w" else "b").
Proof.
  pose proof (fields_side_suffix fen (ply_or_zero ply)) as Hf.
  pose proof (split_nonempty fen) as Hne.
  unfold trackedFen, fields in *.
  set (x := fen ++ side_suffix (ply_or_zero ply)) in *.
  assert (Hlen : List.length (split x) = S (List.length (split fen))).
  { rewrite Hf, length_app. simpl. lia. }
  assert (Hpos : (1 <= List.length (split fen))%nat).
  { destruct (split fen); [congruence|simpl; lia]. }
  destruct (Nat.le_gt_cases (List.length (split x)) 6) as [H6|H6].
  - rewrite completeFen_fields by lia. split.
    + rewrite length_app, length_skipn. unfold fen_defaults.
      cbn [List.length]. lia.
    + rewrite nth_error_app1 by lia. rewrite Hf.
      rewrite nth_error_app2, Nat.sub_diag by lia. reflexivity.
  - rewrite completeFen_unchanged by lia. split; [lia|].
    rewrite Hf. rewrite nth_error_app2, Nat.sub_diag by lia. reflexivity.
Qed.

(** ** The move history *)

Lemma push_history_spec (e : HistoryEntry) (h : list HistoryEntry) :
  push_history e h
  = (if (List.length h <? 50)%nat then h ++ [ e ] else tl (h ++ [ e ]))%list.
Proof.
  unfold push_history. rewrite length_app. cbn [List.length].
  destruct (List.length h <? 50)%nat eqn:Hlt.
  - apply Nat.ltb_lt in Hlt.
    assert (H : (50 <? List.length h + 1)%nat = false)
      by (apply Nat.ltb_ge; lia).
    rewrite H. reflexivity.
  - apply Nat.ltb_ge in Hlt.
    assert (H : (50 <? List.length h + 1)%nat = true)
      by (apply Nat.ltb_lt; lia).
    rewrite H. reflexivity.
Qed.

Lemma push_history_length (e : HistoryEntry) (h : list HistoryEntry) :
  (List.length h <= 50)%nat -> (List.length (push_history e h) <= 50)%nat.
Proof.
  intros Hh. rewrite push_history_spec.
  destruct (List.length h <? 50)%nat eqn:Hlt.
  - apply Nat.ltb_lt in Hlt. rewrite length_app. simpl. lia.
  - destruct h as [|x h]; simpl in *; [lia|].
    rewrite length_app. simpl. lia.
Qed.

Lemma push_all_window (es h : list HistoryEntry) :
  (List.length h <= 50)%nat ->
  push_all es h = skipn (List.length (h ++ es) - 50) (h ++ es).
Proof.
  revert h. induction es as [|e es IH]; intros h Hh.
  - simpl. rewrite app_nil_r.
    replace (List.length h - 50)%nat with 0%nat by lia. reflexivity.
  - unfold push_all in *. cbn [fold_left].
    rewrite IH by (apply push_history_length; exact Hh).
    rewrite push_history_spec.
    destruct (List.length h <? 50)%nat eqn:Hlt.
    + rewrite <- app_assoc. reflexivity.
    + apply Nat.ltb_ge in Hlt.
      destruct h as [|x h]; [simpl in Hlt; lia|].
      cbn [app tl]. rewrite <- app_assoc. cbn [app].
      cbn [List.length] in *.
      assert (Hn : (50 <= List.length (h ++ e :: es))%nat)
        by (rewrite length_app; cbn [List.length]; lia).
      replace (S (List.length (h ++ e :: es)) - 50)%nat
        with (S (List.length (h ++ e :: es) - 50))%nat by lia.
      reflexivity.
Qed.

(** X4: the history is a window on the last fifty results: pushing the
    entries [es] one by one onto the empty history leaves exactly the
    last fifty of them (all of them when there are fewer), oldest
    first. *)
Theorem history_keeps_last_fifty (es : list HistoryEntry) :
  push_all es [] = skipn (List.length es - 50) es
  /\ List.length (push_all es []) = Nat.min 50 (List.length es).
Proof.
  assert (H : push_all es [] = skipn (List.length es - 50) es)
    by (rewrite push_all_window by (simpl; lia); reflexivity).
  split; [exact H|]. rewrite H, length_skipn. lia.
Qed.

(** ** The terminal line of the engine *)

Lemma split_bestmove_line (tok rest : string) :
  no_space tok = true ->
  rest = "" \/ (exists r, rest = String " " r) ->
  at_index (split ("bestmove " ++ tok ++ rest)) 1 = Some tok.
Proof.
  intros Htok Hrest.
  change ("bestmove " ++ tok ++ rest)
    with ("bestmove" ++ String " " (tok ++ rest)).
  rewrite split_app_sp. cbn [split is_space Ascii.eqb Bool.eqb app].
  destruct Hrest as [->|[r ->]].
  - rewrite string_app_nil_r, (split_single tok Htok). reflexivity.
  - rewrite (split_app_String_space tok r Htok). reflexivity.
Qed.

Lemma includes_bestmove_prefix (s : string) :
  includes "bestmove" ("bestmove " ++ s) = true.
Proof. cbn. destruct s; reflexivity. Qed.

(** X5: on a line "bestmove <token>" or "bestmove <token> <more>" the
    handler clears the calculating flag and stores the token, whatever it
    is.  An empty token and "(none)" go no further: no history entry, no
    log line, no timer.  Any other token is logged, pushed on the history
    with the current position and the time, and scheduled for dispatch
    exactly when autoMove is on. *)
Theorem terminal_line_effects
  (tok rest : string) (now rnd : Z) (st : State) :
  no_space tok = true ->
  rest = "" \/ (exists r, rest = String " " r) ->
  let st' := onEngineMessage ("bestmove " ++ tok ++ rest) now rnd st in
  isCalculating st' = false
  /\ bestMove st' = Some tok
  /\ (tok = "" \/ tok = "(none)" ->
      moveHistory st' = moveHistory st
      /\ consoleLog st' = consoleLog st
      /\ timers st' = timers st)
  /\ (tok <> "" -> tok <> "(none)" ->
      moveHistory st'
      = push_history {| entry_fen := currentFen st;
                        entry_move := tok;
                        entry_timestamp := now |} (moveHistory st)
      /\ consoleLog st'
         = (consoleLog st ++ [ ("Best move calculated: " ++ tok)%string ])%list
      /\ timers st'
         = if autoMove (settings st)
           then (timers st ++ [ (computeDelay (settings st) rnd, tok) ])%list
           else timers st).
Proof.
  intros Htok Hrest st'. unfold st', onEngineMessage.
  rewrite includes_bestmove_prefix.
  cbn [bestMove set_bestMove].
  rewrite (split_bestmove_line tok rest Htok Hrest).
  destruct (String.eqb tok "") eqn:He; [|destruct (String.eqb tok "(none)") eqn:Hn].
  - apply String.eqb_eq in He. cbn [negb andb].
    split; [reflexivity|]. split; [reflexivity|].
    split; [intros _; repeat split; reflexivity|].
    intros Hne. congruence.
  - apply String.eqb_eq in Hn. cbn [negb andb].
    split; [reflexivity|]. split; [reflexivity|].
    split; [intros _; repeat split; reflexivity|].
    intros _ Hne. congruence.
  - apply String.eqb_neq in He, Hn. cbn [negb andb].
    cbn [settings log set_consoleLog set_moveHistory set_bestMove
         set_isCalculating].
    destruct (autoMove (settings st)).
    + split; [reflexivity|]. split; [reflexivity|].
      split; [intros [H|H]; congruence|].
      intros _ _. repeat split; reflexivity.
    + split; [reflexivity|]. split; [reflexivity|].
      split; [intros [H|H]; congruence|].
      intros _ _. repeat split; reflexivity.
Qed.

Lemma terminal_line_effects_witness :
  no_space "e2e4" = true
  /\ bestMove (onEngineMessage "bestmove e2e4 ponder e7e5" 7 0 one_field_update)
     = Some "e2e4"
  /\ moveHistory
       (onEngineMessage "bestmove e2e4 ponder e7e5" 7 0 one_field_update)
     = [ {| entry_fen := "8/8/8/8/8/8/8/K6k w - - 0 1";
            entry_move := "e2e4";
            entry_timestamp := 7 |} ].
Proof.
  split; [reflexivity|].
  destruct (terminal_line_effects "e2e4" " ponder e7e5" 7 0 one_field_update
              eq_refl (or_intror (ex_intro _ "ponder e7e5" eq_refl)))
    as [_ [Hbest [_ Hok]]].
  split; [exact Hbest|].
  destruct Hok as [Hhist _]; [discriminate|discriminate|exact Hhist].
Defined.

(** ** What the three workers leave alone *)

Ltac calc_field st :=
  unfold calculateMove;
  destruct (negb (isEngineReady st) || String.eqb (currentFen st) ""
            || isCalculating st)%bool;
  [reflexivity|];
  destruct (strict_eq (currentFen st) (lastCalculatedFen st));
  reflexivity.

Lemma calculateMove_webSocketWrapper (st : State) :
  webSocketWrapper (calculateMove st) = webSocketWrapper st.
Proof. calc_field st. Qed.

Lemma calculateMove_moveHistory (st : State) :
  moveHistory (calculateMove st) = moveHistory st.
Proof. calc_field st. Qed.

Lemma calculateMove_socketOutbox (st : State) :
  socketOutbox (calculateMove st) = socketOutbox st.
Proof. calc_field st. Qed.

Lemma calculateMove_timers (st : State) :
  timers (calculateMove st) = timers st.
Proof. calc_field st. Qed.

Lemma calculateMove_bestMove (st : State) :
  bestMove (calculateMove st) = bestMove st.
Proof. calc_field st. Qed.

Ltac send_field move st :=
  unfold sendMove;
  destruct (negb (socket_open (webSocketWrapper st))); [reflexivity|];
  destruct (String.eqb move "" || (String.length move <? 4)%nat)%bool;
  [reflexivity|];
  destruct (socket_send_throws (webSocketWrapper st)); reflexivity.

Lemma sendMove_webSocketWrapper (move : string) (st : State) :
  webSocketWrapper (fst (sendMove move st)) = webSocketWrapper st.
Proof. send_field move st. Qed.

Lemma sendMove_moveHistory (move : string) (st : State) :
  moveHistory (fst (sendMove move st)) = moveHistory st.
Proof. send_field move st. Qed.

Lemma sendMove_settings (move : string) (st : State) :
  settings (fst (sendMove move st)) = settings st.
Proof. send_field move st. Qed.

Lemma sendMove_engineInbox (move : string) (st : State) :
  engineInbox (fst (sendMove move st)) = engineInbox st.
Proof. send_field move st. Qed.

Lemma sendMove_isEngineReady (move : string) (st : State) :
  isEngineReady (fst (sendMove move st)) = isEngineReady st.
Proof. send_field move st. Qed.

Lemma sendMove_isCalculating (move : string) (st : State) :
  isCalculating (fst (sendMove move st)) = isCalculating st.
Proof. send_field move st. Qed.

Ltac rewrite_fields :=
  rewrite ?calculateMove_webSocketWrapper, ?calculateMove_moveHistory,
    ?calculateMove_socketOutbox, ?calculateMove_timers,
    ?calculateMove_bestMove, ?calculateMove_settings,
    ?calculateMove_isEngineReady, ?calculateMove_currentFen,
    ?calculateMove_consoleLog, ?sendMove_webSocketWrapper,
    ?sendMove_moveHistory, ?sendMove_settings, ?sendMove_engineInbox,
    ?sendMove_isEngineReady, ?sendMove_isCalculating, ?sendMove_timers.

(** ** Case analysis on the handlers *)

Ltac state_cbn :=
  cbn -[string_of_Z includes split String.append String.eqb String.length
        Nat.ltb Nat.leb Z.eqb Z.max Z.min floor_random_times socket_open
        socket_send_throws push_history computeDelay toLowerCase
        filter is_submission go_command trackedFen remove_nth nth_error
        List.length app calculateMove sendMove or_default handshake firstn
        to_double Z.add Z.sub Z.opp Z.mul Z.pow].

Ltac handler_cases :=
  repeat (state_cbn; rewrite_fields;
          match goal with
          | |- context [match ?x with _ => _ end] => destruct x eqn:?
          end);
  state_cbn; rewrite_fields.

Ltac unfold_handlers :=
  unfold handlePage, handle, onSocketMessage, onEngineMessage, timerFires,
    onPlayClick, onRecalcClick, onMinDelayChange, onMaxDelayChange,
    onToggleAutoMove, onToggleHumanTiming, initializeChessEngine,
    onSocketConstructed, onReadyState, onSocketClose, onDepthChange,
    onSkillInput, onToggleDebug, onKeyDown, constructSocket, onCreateUI,
    onPlayClick, onToggleAutoMove, onRecalcClick, onSocketConstructed,
    onTogglePanel, sendMoveWithDelay.

(** The four tests of the [keydown] listener are on the same key, so at
    most one of them fires. *)
Lemma onKeyDown_one (altKey : bool) (key : string) (rnd : Z) (st : State) :
  onKeyDown altKey key rnd st = st
  \/ onKeyDown altKey key rnd st = onPlayClick rnd st
  \/ onKeyDown altKey key rnd st = onToggleAutoMove st
  \/ onKeyDown altKey key rnd st = onRecalcClick st
  \/ onKeyDown altKey key rnd st = onTogglePanel st.
Proof.
  unfold onKeyDown. destruct altKey; [|left; reflexivity].
  cbn [andb].
  destruct (String.eqb (toLowerCase key) "m") eqn:Hm.
  { apply String.eqb_eq in Hm. rewrite Hm. right. left. reflexivity. }
  destruct (String.eqb (toLowerCase key) "a") eqn:Ha.
  { apply String.eqb_eq in Ha. rewrite Ha. right. right. left. reflexivity. }
  destruct (String.eqb (toLowerCase key) "c") eqn:Hc.
  { apply String.eqb_eq in Hc. rewrite Hc. do 3 right. left. reflexivity. }
  destruct (String.eqb (toLowerCase key) "h"); [do 4 right|left];
    reflexivity.
Qed.

Ltac split_keydown :=
  try match goal with
      | |- context [handlePage (EvKeyDown ?a ?k ?r) ?s] =>
          let Hk := fresh "Hk" in
          cbn [handlePage];
          destruct (onKeyDown_one a k r s) as [Hk|[Hk|[Hk|[Hk|Hk]]]];
          rewrite Hk; clear Hk
      end.

Ltac by_events ev :=
  destruct ev as [ev| | | | | |]; [destruct ev|..];
  split_keydown; unfold_handlers; handler_cases.

(** ** Dispatch through the socket *)

(** X6: [sendMove] returns true exactly when a socket is tracked, its
    ready state is OPEN, its [send] does not raise and the move has at
    least four characters; it writes one frame carrying the move in that
    case and nothing in any other. *)
Theorem sendMove_succeeds_iff (move : string) (st : State) :
  (snd (sendMove move st) = true
   <-> (exists sock,
          webSocketWrapper st = Some sock
          /\ readyState sock = WebSocket_OPEN
          /\ sendThrows sock = false)
       /\ (4 <= String.length move)%nat)
  /\ socketOutbox (fst (sendMove move st))
     = if snd (sendMove move st)
       then (socketOutbox st ++ [ move_frame move ])%list
       else socketOutbox st.
Proof.
  unfold sendMove, socket_open, socket_send_throws.
  destruct (webSocketWrapper st) as [sock|].
  2:{ cbn. split; [|reflexivity]. split; [discriminate|].
      intros [[sock [H _]] _]. discriminate. }
  destruct (readyState sock =? WebSocket_OPEN) eqn:Hrs; cbn [negb].
  2:{ cbn. split; [|reflexivity]. split; [discriminate|].
      intros [[sock' [H [Hopen _]]] _]. injection H as <-.
      apply Z.eqb_neq in Hrs. congruence. }
  apply Z.eqb_eq in Hrs.
  assert (Hlen : (String.eqb move "" || (String.length move <? 4)%nat)%bool
                 = (String.length move <? 4)%nat).
  { destruct move; reflexivity. }
  rewrite Hlen.
  destruct (String.length move <? 4)%nat eqn:Hl.
  { cbn. split; [|reflexivity]. split; [discriminate|].
    apply Nat.ltb_lt in Hl. intros [_ H]. lia. }
  apply Nat.ltb_ge in Hl.
  destruct (sendThrows sock) eqn:Hthrow.
  { cbn. split; [|reflexivity]. split; [discriminate|].
    intros [[sock' [H [_ Hno]]] _]. injection H as <-. congruence. }
  cbn. split; [|reflexivity]. split; [|reflexivity].
  intros _. split; [|exact Hl]. exists sock. auto.
Qed.

Lemma sendMove_closed (move : string) (st : State) :
  socket_open (webSocketWrapper st) = false ->
  socketOutbox (fst (sendMove move st)) = socketOutbox st.
Proof. intros H. unfold sendMove. rewrite H. reflexivity. Qed.

(** X7: while no socket is tracked, or the tracked one is not OPEN, no
    event on the page writes a frame. *)
Theorem closed_socket_is_never_written (ev : PageEvent) (st : State) :
  socket_open (webSocketWrapper st) = false ->
  socketOutbox (handlePage ev st) = socketOutbox st.
Proof.
  intros Hclosed.
  by_events ev; try reflexivity.
  apply (sendMove_closed _ (set_timers _ st)). exact Hclosed.
Qed.

Lemma closed_socket_is_never_written_witness :
  socket_open (webSocketWrapper (run [ EvEngineMessage "bestmove e2e4" 0 0;
                                       EvPlayClick 0 ] initialState)) = false
  /\ socketOutbox (run [ EvEngineMessage "bestmove e2e4" 0 0; EvPlayClick 0;
                         EvTimer 0 ] initialState) = [].
Proof.
  split; [vm_compute; reflexivity|].
  pose proof (closed_socket_is_never_written (Core (EvTimer 0))
                (run [ EvEngineMessage "bestmove e2e4" 0 0; EvPlayClick 0 ]
                     initialState)) as H.
  vm_compute in H. vm_compute. apply H. reflexivity.
Defined.

(** ** Invariants of the event loop *)

Lemma runPage_invariant (P : State -> Prop) :
  (forall ev st, P st -> P (handlePage ev st)) ->
  forall evs st, P st -> P (runPage evs st).
Proof.
  intros Hstep evs. induction evs as [|ev evs IH]; intros st Hst;
    [exact Hst|].
  cbn [runPage]. apply IH, Hstep, Hst.
Qed.

Lemma history_step (ev : PageEvent) (st : State) :
  (List.length (moveHistory st) <= 50)%nat ->
  (List.length (moveHistory (handlePage ev st)) <= 50)%nat.
Proof.
  intros Hst. by_events ev; try assumption.
  all: apply push_history_length; assumption.
Qed.

(** X8: the history never holds more than fifty entries: no sequence of
    events takes it from fifty or fewer to more. *)
Theorem history_bounded (evs : list PageEvent) (st : State) :
  (List.length (moveHistory st) <= 50)%nat ->
  (List.length (moveHistory (runPage evs st)) <= 50)%nat.
Proof.
  apply (runPage_invariant
           (fun st => (List.length (moveHistory st) <= 50)%nat)).
  exact history_step.
Qed.

Lemma history_bounded_witness :
  (List.length (moveHistory initialState) <= 50)%nat
  /\ (List.length
        (moveHistory
           (runPage [ Core (EvEngineMessage "bestmove e2e4" 0 0);
                      Core (EvEngineMessage "bestmove e7e5" 1 0) ]
                    initialState)) <= 50)%nat.
Proof.
  split; [simpl; lia|].
  apply (history_bounded
           [ Core (EvEngineMessage "bestmove e2e4" 0 0);
             Core (EvEngineMessage "bestmove e7e5" 1 0) ] initialState).
  simpl. lia.
Defined.

Lemma sendMove_well_formed (move : string) (st : State) :
  Forall well_formed_frame (socketOutbox st) ->
  Forall well_formed_frame (socketOutbox (fst (sendMove move st))).
Proof.
  intros Hst. unfold sendMove.
  destruct (negb (socket_open (webSocketWrapper st))); [exact Hst|].
  destruct (String.eqb move "" || (String.length move <? 4)%nat)%bool eqn:Hv;
    [exact Hst|].
  destruct (socket_send_throws (webSocketWrapper st)); [exact Hst|].
  cbn. apply Forall_app. split; [exact Hst|].
  constructor; [|constructor].
  apply orb_false_iff in Hv as [_ Hlen]. apply Nat.ltb_ge in Hlen.
  split; [reflexivity|exact Hlen].
Qed.

Lemma outbox_step (ev : PageEvent) (st : State) :
  Forall well_formed_frame (socketOutbox st) ->
  Forall well_formed_frame (socketOutbox (handlePage ev st)).
Proof.
  intros Hst. by_events ev; try assumption.
  apply (sendMove_well_formed _ (set_timers _ st)). exact Hst.
Qed.

(** X9: every frame the script ever writes to the socket is a move frame
    with the fixed fields b = 1, l = 10000, a = 1 around a move of at
    least four characters: no sequence of events adds any other. *)
Theorem outbox_frames_well_formed (evs : list PageEvent) :
  Forall well_formed_frame (socketOutbox (runPage evs initialState)).
Proof.
  apply (runPage_invariant
           (fun st => Forall well_formed_frame (socketOutbox st))).
  - exact outbox_step.
  - constructor.
Qed.








Lemma sane_step (ev : PageEvent) (st : State) :
  settings_sane (settings st) -> settings_sane (settings (handlePage ev st)).
Proof.
  intros Hst. unfold settings_sane in *.
  by_events ev; try exact Hst; try lia.
  pose proof (to_double_at_least (minDelay (settings st) + 100) 100
                ltac:(lia) ltac:(vm_compute; discriminate)).
  lia.
Qed.

(** X11: the bounds the panel enforces are kept by every event: once
    the settings hold a depth between 1 and 20 and delays of at least
    100 ms, as the defaults do, they hold such values ever after. *)
Theorem settings_stay_sane (evs : list PageEvent) (st : State) :
  settings_sane (settings st) ->
  settings_sane (settings (runPage evs st)).
Proof.
  apply (runPage_invariant (fun st => settings_sane (settings st))).
  exact sane_step.
Qed.

Lemma settings_stay_sane_witness :
  settings_sane (settings initialState)
  /\ settings_sane
       (settings (runPage [ EvDepthChange (Some 99);
                            Core (EvMinDelayChange (Some 5));
                            Core (EvMaxDelayChange None) ] initialState)).
Proof.
  assert (H0 : settings_sane (settings initialState))
    by (unfold settings_sane; simpl; lia).
  split; [exact H0|].
  exact (settings_stay_sane
           [ EvDepthChange (Some 99); Core (EvMinDelayChange (Some 5));
             Core (EvMaxDelayChange None) ] initialState H0).
Defined.

Lemma computeDelay_at_least (cfg : Settings) (rnd : Z) :
  settings_sane cfg -> is_random rnd -> 100 <= computeDelay cfg rnd.
Proof.
  unfold settings_sane, is_random, computeDelay, floor_random_times,
    random_denominator.
  intros [_ [Hmin Hmax]] Hrnd.
  assert (Hd : 0 < 2 ^ 53) by reflexivity.
  assert (Hc : 100 <= 2 ^ 53) by (vm_compute; discriminate).
  destruct (humanLikeTiming cfg); [|exact Hmin].
  apply to_double_at_least; [|exact Hc]. split; [lia|].
  destruct (Z_le_gt_dec 0 (maxDelay cfg - minDelay cfg)) as [Hpos|Hneg].
  - (* the span is not negative: so are the product and its floor *)
    rewrite (to_double_nonneg (maxDelay cfg - minDelay cfg)) by exact Hpos.
    pose proof (round_nonneg_nonneg _ Hpos) as Hspan.
    rewrite to_double_nonneg by nia.
    pose proof (round_nonneg_nonneg
                  (rnd * round_nonneg (maxDelay cfg - minDelay cfg))
                  ltac:(nia)) as Hprod.
    pose proof (Z.div_pos _ (2 ^ 53) Hprod Hd). lia.
  - (* the maximum is below the minimum: the floor stays within the
       difference *)
    set (d := minDelay cfg - maxDelay cfg).
    assert (Hdpos : 0 < d) by (unfold d; lia).
    rewrite (to_double_nonpos (maxDelay cfg - minDelay cfg)) by lia.
    replace (- (maxDelay cfg - minDelay cfg)) with d by (unfold d; lia).
    pose proof (round_nonneg_nonneg d ltac:(lia)) as Hs.
    rewrite to_double_nonpos by nia.
    replace (- (rnd * - round_nonneg d)) with (rnd * round_nonneg d) by lia.
    pose proof (round_product_within rnd d Hrnd Hdpos) as Hw.
    assert (Hfl : - d <= - round_nonneg (rnd * round_nonneg d) / 2 ^ 53).
    { apply Z.div_le_lower_bound; [exact Hd|lia]. }
    unfold d in *. lia.
Qed.

Lemma Forall_remove_nth {A : Type} (P : A -> Prop) (i : nat) (l : list A) :
  Forall P l -> Forall P (remove_nth i l).
Proof.
  revert i. induction l as [|x l IH]; intros i Hl; [destruct i; exact Hl|].
  inversion Hl as [|? ? Hx Hrest]; subst.
  destruct i; cbn [remove_nth]; [exact Hrest|].
  constructor; [exact Hx|apply IH, Hrest].
Qed.

Lemma timers_step (ev : PageEvent) (st : State) :
  draws_random ev ->
  settings_sane (settings st) ->
  timers_at_least 100 st ->
  timers_at_least 100 (handlePage ev st).
Proof.
  intros Hrnd Hsane Hst. unfold timers_at_least in *.
  by_events ev; try exact Hst;
    try (apply Forall_remove_nth; exact Hst);
    try (apply Forall_app; split; [exact Hst|];
         constructor; [|constructor];
         apply computeDelay_at_least; assumption).
Qed.

(** X12: with sane settings, every timer a dispatch arms waits at least
    100 ms, with or without humanLikeTiming and even when the stored
    maximum is below the minimum: no sequence of events arms a shorter
    one. *)
Theorem dispatch_never_sooner_than_100ms (evs : list PageEvent) (st : State) :
  Forall draws_random evs ->
  settings_sane (settings st) ->
  timers_at_least 100 st ->
  timers_at_least 100 (runPage evs st).
Proof.
  revert st. induction evs as [|ev evs IH]; intros st Hrnd Hsane Hst;
    [exact Hst|].
  inversion Hrnd as [|? ? Hev Hevs]; subst.
  cbn [runPage]. apply IH; [exact Hevs| |].
  - apply sane_step, Hsane.
  - apply timers_step; assumption.
Qed.

Lemma dispatch_never_sooner_than_100ms_witness :
  settings_sane (settings initialState)
  /\ timers_at_least 100
       (runPage [ Core EvToggleHumanTiming;
                  Core (EvMinDelayChange (Some 3000));
                  Core (EvEngineMessage "bestmove e2e4" 0 half);
                  Core (EvPlayClick half) ] initialState).
Proof.
  assert (H0 : settings_sane (settings initialState))
    by (unfold settings_sane; simpl; lia).
  assert (Hh : is_random half)
    by (unfold is_random; vm_compute; split; congruence).
  split; [exact H0|].
  apply (dispatch_never_sooner_than_100ms
           [ Core EvToggleHumanTiming; Core (EvMinDelayChange (Some 3000));
             Core (EvEngineMessage "bestmove e2e4" 0 half);
             Core (EvPlayClick half) ] initialState).
  - repeat (apply Forall_cons; [first [exact I|exact Hh]|]).
    apply Forall_nil.
  - exact H0.
  - apply Forall_nil.
Defined.

(** ** One request at a time *)

Lemma calculateMove_outstanding (st : State) :
  (submissions (calculateMove st) + outstanding st
   <= submissions st + outstanding (calculateMove st))%nat.
Proof.
  unfold calculateMove.
  destruct (isEngineReady st); cbn [negb orb]; [|lia].
  destruct (String.eqb (currentFen st) ""); cbn [orb]; [lia|].
  destruct (isCalculating st) eqn:Hc; [lia|].
  destruct (strict_eq (currentFen st) (lastCalculatedFen st)); [lia|].
  unfold submissions, outstanding. rewrite Hc.
  cbn -[filter is_submission go_command String.append].
  rewrite <- app_assoc, filter_app, length_app.
  assert (Hl : (List.length
                  (filter is_submission
                     [ ("position fen " ++ currentFen st)%string;
                       go_command (settings st) ]) <= 1)%nat).
  { cbn -[string_of_Z]. destruct (String.prefix "" (currentFen st));
      simpl; lia. }
  cbn [app] in *. lia.
Qed.

Lemma update_outstanding (p : string) (st : State) :
  let st' := set_currentFen p st in
  let r := if (isEngineReady st' && negb (isCalculating st'))%bool
           then calculateMove st' else st' in
  (submissions r + outstanding st <= submissions st + 0 + outstanding r)%nat.
Proof.
  intros st' r.
  pose proof (calculateMove_outstanding st') as Hx.
  change (outstanding st') with (outstanding st) in Hx.
  change (submissions st') with (submissions st) in Hx.
  unfold r. destruct (isEngineReady st' && negb (isCalculating st'))%bool.
  - lia.
  - change (outstanding st') with (outstanding st).
    change (submissions st') with (submissions st). lia.
Qed.

Lemma recalc_outstanding (st : State) :
  (submissions (onRecalcClick st) + outstanding st
   <= submissions st + 0 + outstanding (onRecalcClick st))%nat.
Proof.
  unfold onRecalcClick.
  pose proof (calculateMove_outstanding (set_lastCalculatedFen None st))
    as Hx.
  change (outstanding (set_lastCalculatedFen None st))
    with (outstanding st) in Hx.
  change (submissions (set_lastCalculatedFen None st))
    with (submissions st) in Hx.
  lia.
Qed.

Ltac same_counts :=
  unfold_handlers; handler_cases; unfold submissions, outstanding;
  state_cbn; lia.

Lemma outstanding_step (ev : PageEvent) (st : State) :
  (submissions (handlePage ev st) + outstanding st
   <= submissions st + (if is_answer ev then 1 else 0)
      + outstanding (handlePage ev st))%nat.
Proof.
  destruct ev as [ev| | | |altKey key rnd| |]; [destruct ev|..];
    cbn [is_answer].
  - (* socket message *)
    cbn [handlePage handle]. unfold onSocketMessage.
    destruct (frame_type message);
      try (destruct (frame_fen message) as [fen|]; [|lia];
           apply update_outstanding);
      unfold submissions, outstanding; state_cbn; lia.
  - (* engine message *)
    pose proof (onEngineMessage_adapter_view message now rnd st) as Hv.
    apply submissions_adapter_view in Hv.
    cbn [handlePage handle]. rewrite Hv.
    destruct (includes "bestmove" message) eqn:Hinc.
    + unfold outstanding. destruct (isCalculating st);
        destruct (isCalculating _); lia.
    + unfold onEngineMessage. rewrite Hinc. lia.
  - (* timer *)
    pose proof (timerFires_adapter_view i st) as Hv.
    apply submissions_adapter_view in Hv.
    cbn [handlePage handle]. rewrite Hv.
    unfold timerFires, outstanding.
    destruct (nth_error (timers st) i) as [[delay move]|]; [|lia].
    state_cbn. rewrite_fields. state_cbn. lia.
  - same_counts.
  - apply recalc_outstanding.
  - same_counts.
  - same_counts.
  - same_counts.
  - same_counts.
  - (* engine start-up *)
    pose proof (initializeChessEngine_adapter_view load st) as Hv.
    apply submissions_adapter_view in Hv.
    cbn [handlePage handle]. rewrite Hv.
    destruct load; unfold outstanding; state_cbn; lia.
  - same_counts.
  - same_counts.
  - same_counts.
  - same_counts.
  - (* skill slider *)
    unfold_handlers. handler_cases; unfold submissions, outstanding;
      state_cbn; rewrite ?filter_app, ?length_app;
      cbn -[string_of_Z]; lia.
  - same_counts.
  - (* keyboard *)
    cbn [handlePage].
    destruct (onKeyDown_one altKey key rnd st) as [Hk|[Hk|[Hk|[Hk|Hk]]]];
      rewrite Hk; clear Hk.
    + lia.
    + same_counts.
    + same_counts.
    + apply recalc_outstanding.
    + same_counts.
  - same_counts.
  - same_counts.
Qed.

Lemma answers_cons (ev : PageEvent) (evs : list PageEvent) :
  answers (ev :: evs) = ((if is_answer ev then 1 else 0) + answers evs)%nat.
Proof. unfold answers. cbn [filter]. destruct (is_answer ev); reflexivity. Qed.

Lemma outstanding_run (evs : list PageEvent) (st : State) :
  (submissions (runPage evs st) + outstanding st
   <= submissions st + answers evs + outstanding (runPage evs st))%nat.
Proof.
  revert st. induction evs as [|ev evs IH]; intros st.
  - cbn. unfold answers. cbn. lia.
  - cbn [runPage]. rewrite answers_cons.
    pose proof (outstanding_step ev st) as Hstep.
    pose proof (IH (handlePage ev st)) as Hrest.
    lia.
Qed.

(** X13: one request at a time.  Counted from the start of the script,
    the positions submitted to the engine never exceed the terminal
    lines received from it by more than one, and they do not exceed them
    at all once the calculating flag is down. *)
Theorem submissions_follow_answers (evs : list PageEvent) :
  (submissions (runPage evs initialState)
   <= answers evs + outstanding (runPage evs initialState))%nat
  /\ (submissions (runPage evs initialState) <= S (answers evs))%nat.
Proof.
  pose proof (outstanding_run evs initialState) as H.
  change (submissions initialState) with 0%nat in H.
  change (outstanding initialState) with 0%nat in H.
  assert (Ho : (outstanding (runPage evs initialState) <= 1)%nat)
    by (unfold outstanding; destruct (isCalculating _); lia).
  lia.
Qed.

(** ** Manual commands *)



(** X15: a game-end frame sets the stored move to null and logs "Game
    ended", and changes no other variable of the script: the tracked
    socket, the current position, the engine's flags, the last-submitted
    marker, the history, the settings, what was posted, sent and
    scheduled, the errors, the status text and the panel are as before.
    A press of the play button right after it finds no move: it logs "No
    move to play" and does nothing else. *)
Theorem game_end_clears_stored_move (message : Frame) (rnd : Z) (st : State) :
  frame_type message = T_end \/ frame_type message = T_endData ->
  let st' := onSocketMessage message st in
  st' = set_bestMove None
          (set_consoleLog (consoleLog st ++ [ "Game ended" ]) st)
  /\ bestMove st' = None
  /\ consoleLog st' = (consoleLog st ++ [ "Game ended" ])%list
  /\ webSocketWrapper st' = webSocketWrapper st
  /\ currentFen st' = currentFen st
  /\ isEngineReady st' = isEngineReady st
  /\ isCalculating st' = isCalculating st
  /\ lastCalculatedFen st' = lastCalculatedFen st
  /\ moveHistory st' = moveHistory st
  /\ settings st' = settings st
  /\ engineInbox st' = engineInbox st
  /\ socketOutbox st' = socketOutbox st
  /\ timers st' = timers st
  /\ consoleErrors st' = consoleErrors st
  /\ statusDisplay st' = statusDisplay st
  /\ uiPanel st' = uiPanel st
  /\ onPlayClick rnd st'
     = set_consoleLog (consoleLog st' ++ [ "No move to play" ]) st'.
Proof.
  intros Ht st'.
  assert (Hst' : st' = set_bestMove None
                         (set_consoleLog (consoleLog st ++ [ "Game ended" ])
                                         st)).
  { unfold st', onSocketMessage.
    destruct Ht as [Ht|Ht]; rewrite Ht; reflexivity. }
  rewrite Hst'. repeat split; reflexivity.
Qed.

Lemma game_end_clears_stored_move_witness :
  (T_end = T_end \/ T_end = T_endData)
  /\ bestMove
       (onSocketMessage {| frame_type := T_end; frame_fen := None;
                           frame_ply := None |}
          (onEngineMessage "bestmove e2e4" 0 0 initialState)) = None.
Proof.
  split; [left; reflexivity|].
  exact (proj1 (proj2 (game_end_clears_stored_move
                         {| frame_type := T_end; frame_fen := None;
                            frame_ply := None |} 0
                         (onEngineMessage "bestmove e2e4" 0 0 initialState)
                         (or_introl eq_refl)))).
Defined.

(** ** From the engine's answer to the frame on the wire *)

Lemma remove_nth_last {A : Type} (l : list A) (x : A) :
  remove_nth (List.length l) (l ++ [ x ]) = l.
Proof.
  induction l as [|y l IH]; [reflexivity|].
  cbn [List.length app remove_nth]. rewrite IH. reflexivity.
Qed.

Lemma sendMove_usable (move : string) (st : State) :
  socket_usable st ->
  (4 <= String.length move)%nat ->
  snd (sendMove move st) = true.
Proof.
  intros [sock [Hws [Hopen Hno]]] Hlen. unfold sendMove.
  rewrite Hws. cbn [socket_open socket_send_throws].
  rewrite Hopen, Hno. cbn [Z.eqb WebSocket_OPEN Pos.eqb negb].
  assert (Hl : (String.length move <? 4)%nat = false)
    by (apply Nat.ltb_ge; exact Hlen).
  rewrite Hl. destruct move; [simpl in Hlen; lia|reflexivity].
Qed.

(** X16: with autoMove on and a usable socket, an engine line
    "bestmove <token> ..." whose token has at least four characters and
    is not "(none)" arms one timer with the computed delay and writes
    nothing yet; when that timer expires, exactly one frame carrying the
    token is written, the stored move is cleared and the timer is
    gone. *)
Theorem auto_move_end_to_end
  (tok rest : string) (now rnd : Z) (st : State) :
  autoMove (settings st) = true ->
  socket_usable st ->
  no_space tok = true ->
  (4 <= String.length tok)%nat ->
  tok <> "(none)" ->
  rest = "" \/ (exists r, rest = String " " r) ->
  let st1 := onEngineMessage ("bestmove " ++ tok ++ rest) now rnd st in
  let st2 := timerFires (List.length (timers st)) st1 in
  timers st1 = (timers st ++ [ (computeDelay (settings st) rnd, tok) ])%list
  /\ socketOutbox st1 = socketOutbox st
  /\ socketOutbox st2 = (socketOutbox st ++ [ move_frame tok ])%list
  /\ bestMove st2 = None
  /\ timers st2 = timers st.
Proof.
  intros Hauto Hsock Htok Hlen Hnone Hrest st1 st2.
  assert (Hne : String.eqb tok "" = false).
  { destruct tok; [simpl in Hlen; lia|reflexivity]. }
  apply String.eqb_neq in Hnone.
  assert (Hst1 : st1
    = sendMoveWithDelay tok rnd
        (set_moveHistory
           (push_history {| entry_fen := currentFen st; entry_move := tok;
                            entry_timestamp := now |} (moveHistory st))
           (log ("Best move calculated: " ++ tok)
              (set_bestMove (Some tok) (set_isCalculating false st))))).
  { unfold st1, onEngineMessage. rewrite includes_bestmove_prefix.
    cbn [bestMove set_bestMove].
    rewrite (split_bestmove_line tok rest Htok Hrest), Hne, Hnone.
    cbn [negb andb].
    cbn [settings log set_consoleLog set_moveHistory set_bestMove
         set_isCalculating].
    rewrite Hauto. reflexivity. }
  assert (Ht1 : timers st1
    = (timers st ++ [ (computeDelay (settings st) rnd, tok) ])%list)
    by (rewrite Hst1; reflexivity).
  split; [exact Ht1|]. split; [rewrite Hst1; reflexivity|].
  assert (Hnth : nth_error (timers st1) (List.length (timers st))
                 = Some (computeDelay (settings st) rnd, tok)).
  { rewrite Ht1, nth_error_app2, Nat.sub_diag by lia. reflexivity. }
  unfold st2. rewrite (timerFires_pending _ _ _ _ Hnth).
  rewrite Ht1, remove_nth_last.
  set (st1' := set_timers (timers st) st1).
  assert (Hok : snd (sendMove tok st1') = true).
  { apply sendMove_usable; [|exact Hlen].
    destruct Hsock as [sock Hs]. exists sock.
    unfold st1'. rewrite Hst1. exact Hs. }
  destruct (sendMove_success tok st1' Hok) as [Hb [Ho _]].
  split; [|split].
  - change (socketOutbox (fst (sendMove tok st1'))
            = (socketOutbox st ++ [ move_frame tok ])%list).
    rewrite Ho. unfold st1'. rewrite Hst1. reflexivity.
  - exact Hb.
  - change (timers (fst (sendMove tok st1')) = timers st).
    rewrite sendMove_timers. reflexivity.
Qed.

Lemma auto_move_end_to_end_witness :
  autoMove (settings (onToggleAutoMove readyState0)) = true
  /\ socket_usable (onToggleAutoMove readyState0)
  /\ socketOutbox
       (timerFires 0
          (onEngineMessage "bestmove e2e4 ponder e7e5" 0 0
             (onToggleAutoMove readyState0)))
     = [ move_frame "e2e4" ].
Proof.
  assert (Hs : socket_usable (onToggleAutoMove readyState0)).
  { exists {| sockId := 0; readyState := 1; sendThrows := false |}.
    repeat split; vm_compute; reflexivity. }
  split; [vm_compute; reflexivity|]. split; [exact Hs|].
  pose proof (auto_move_end_to_end "e2e4" " ponder e7e5" 0 0
                (onToggleAutoMove readyState0)) as H.
  destruct H as [_ [_ [H _]]].
  - vm_compute. reflexivity.
  - exact Hs.
  - reflexivity.
  - simpl. lia.
  - discriminate.
  - right. exists "ponder e7e5". reflexivity.
  - vm_compute in H. vm_compute. exact H.
Defined.

(** ** What the inputs store *)

(** X17: the depth input stores the entered number clamped to 1..20;
    an entry that does not parse, and the entry 0, store 4; the next
    search command carries the stored depth. *)
Theorem depth_input_is_clamped (parsed : option Z) (st : State) :
  let d := depth (settings (onDepthChange parsed st)) in
  1 <= d <= 20
  /\ (forall v, parsed = Some v -> 1 <= v <= 20 -> d = v)
  /\ (forall v, parsed = Some v -> v < 0 -> d = 1)
  /\ (forall v, parsed = Some v -> 20 < v -> d = 20)
  /\ (parsed = None \/ parsed = Some 0 -> d = 4)
  /\ go_command (settings (onDepthChange parsed st))
     = "go depth " ++ string_of_Z d ++ " movetime "
       ++ string_of_Z (timeLimitMs (settings st)).
Proof.
  cbv zeta. unfold onDepthChange.
  cbn [settings set_settings log set_consoleLog depth set_depth].
  split; [lia|]. split; [|split; [|split; [|split]]].
  - intros v -> Hv. unfold or_default. destruct v; lia.
  - intros v -> Hv. unfold or_default. destruct v; lia.
  - intros v -> Hv. unfold or_default. destruct v; lia.
  - intros [->| ->]; reflexivity.
  - reflexivity.
Qed.

(** X18: with the stored minimum and the entry within the integers a
    double holds exactly (a minimum from 0 to below 2^53 - 100, an entry
    of at most 2^53), a write of the maximum delay stores at least the
    minimum plus 100 (2000 is taken for an entry that does not parse or
    is 0), so right after it the timing invariant holds and, with
    humanLikeTiming on, every computed delay lies from the minimum up to,
    not including, the maximum. *)
Theorem max_delay_write_restores_invariant
  (parsed : option Z) (rnd : Z) (st : State) :
  is_random rnd ->
  0 <= minDelay (settings st) < 2 ^ 53 - 100 ->
  or_default parsed 2000 <= 2 ^ 53 ->
  let cfg := settings (onMaxDelayChange parsed st) in
  minDelay cfg = minDelay (settings st)
  /\ maxDelay cfg
     = Z.max (minDelay (settings st) + 100) (or_default parsed 2000)
  /\ delays_ok cfg
  /\ (humanLikeTiming cfg = true ->
      minDelay cfg <= computeDelay cfg rnd < maxDelay cfg).
Proof.
  intros Hrnd Hmin Hentry cfg.
  assert (Hsafe : - 2 ^ 53 < minDelay (settings st) + 100 < 2 ^ 53) by lia.
  assert (Hok : delays_ok cfg)
    by (apply onMaxDelayChange_delays_ok; exact Hsafe).
  assert (Hmaxeq : maxDelay cfg
            = Z.max (minDelay (settings st) + 100) (or_default parsed 2000)).
  { unfold cfg, onMaxDelayChange.
    cbn [settings set_settings maxDelay set_maxDelay].
    rewrite (to_double_small _ Hsafe). reflexivity. }
  split; [reflexivity|]. split; [exact Hmaxeq|]. split; [exact Hok|].
  intros Hh. unfold delays_ok in Hok.
  apply computeDelay_in_interval; try assumption.
  - exact (proj1 Hmin).
  - rewrite Hmaxeq. lia.
  - change (minDelay cfg) with (minDelay (settings st)) in *. lia.
Qed.

Lemma max_delay_write_restores_invariant_witness :
  is_random half
  /\ 0 <= minDelay (settings (run raise_min_delay initialState)) < 2 ^ 53 - 100
  /\ delays_ok
       (settings (onMaxDelayChange (Some 2000)
                    (run raise_min_delay initialState)))
  /\ maxDelay
       (settings (onMaxDelayChange (Some 2000)
                    (run raise_min_delay initialState))) = 3100.
Proof.
  assert (Hh : is_random half)
    by (unfold is_random; vm_compute; split; congruence).
  assert (Hm : 0 <= minDelay (settings (run raise_min_delay initialState))
               < 2 ^ 53 - 100)
    by (vm_compute; split; [discriminate|reflexivity]).
  split; [exact Hh|]. split; [exact Hm|].
  destruct (max_delay_write_restores_invariant (Some 2000) half
              (run raise_min_delay initialState) Hh Hm)
    as [_ [Hmax [Hok _]]].
  - vm_compute. discriminate.
  - split; [exact Hok|exact Hmax].
Defined.

(** X19: the minimum-delay input stores the entered number, at least
    100, and 500 for an entry that does not parse or is 0; it never
    changes the stored maximum, so the gap between the two can shrink
    below 100 or turn negative. *)
Theorem min_delay_write_ignores_maximum (parsed : option Z) (st : State) :
  let cfg := settings (onMinDelayChange parsed st) in
  maxDelay cfg = maxDelay (settings st)
  /\ 100 <= minDelay cfg
  /\ (forall v, parsed = Some v -> 100 <= v -> minDelay cfg = v)
  /\ (forall v, parsed = Some v -> v < 100 -> v <> 0 -> minDelay cfg = 100)
  /\ (parsed = None \/ parsed = Some 0 -> minDelay cfg = 500)
  /\ (forall v, parsed = Some v -> maxDelay (settings st) < v + 100 ->
      100 <= v -> ~ delays_ok cfg).
Proof.
  cbv zeta. unfold onMinDelayChange, delays_ok.
  cbn [settings set_settings minDelay maxDelay set_minDelay].
  split; [reflexivity|]. split; [lia|].
  split; [|split; [|split]].
  - intros v -> Hv. unfold or_default. destruct v; lia.
  - intros v -> Hv Hz. unfold or_default. destruct v; lia.
  - intros [->| ->]; reflexivity.
  - intros v -> Hgap Hv. unfold or_default. destruct v; lia.
Qed.

(** ** Tracking the connection *)

(** X20: only a connection whose URL contains "lichess.org" or "/socket"
    is tracked, and it replaces the one tracked before; the close of a
    connection that is no longer the tracked one changes nothing, the
    close of the tracked one leaves none. *)
Theorem socket_tracking (url : string) (sock : Socket) (id : nat) (st : State) :
  (includes "lichess.org" url = false ->
   includes "/socket" url = false ->
   constructSocket url sock st = st)
  /\ (includes "lichess.org" url = true \/ includes "/socket" url = true ->
      webSocketWrapper (constructSocket url sock st) = Some sock
      /\ (id <> sockId sock ->
          onSocketClose id (constructSocket url sock st)
          = constructSocket url sock st)
      /\ webSocketWrapper
           (onSocketClose (sockId sock) (constructSocket url sock st))
         = None).
Proof.
  unfold constructSocket. split.
  - intros H1 H2. rewrite H1, H2. reflexivity.
  - intros Hm.
    assert (Hc : (includes "lichess.org" url || includes "/socket" url)%bool
                 = true)
      by (apply orb_true_iff; exact Hm).
    rewrite Hc. unfold onSocketConstructed, onSocketClose.
    cbn [webSocketWrapper set_webSocketWrapper].
    split; [reflexivity|]. split.
    + intros Hid.
      assert (Hneq : Nat.eqb (sockId sock) id = false)
        by (apply Nat.eqb_neq; congruence).
      rewrite Hneq. reflexivity.
    + rewrite Nat.eqb_refl. reflexivity.
Qed.

Lemma socket_tracking_witness :
  includes "/socket" "wss://socket2.lichess.org/play/abcd/v6" = true
  /\ webSocketWrapper
       (onSocketClose 0
          (constructSocket "wss://socket2.lichess.org/play/abcd/v6"
             {| sockId := 1; readyState := 0; sendThrows := false |}
             readyState0))
     = Some {| sockId := 1; readyState := 0; sendThrows := false |}.
Proof.
  split; [vm_compute; reflexivity|].
  destruct (socket_tracking "wss://socket2.lichess.org/play/abcd/v6"
              {| sockId := 1; readyState := 0; sendThrows := false |}
              0 readyState0) as [_ H].
  destruct H as [Hw [Hclose _]]; [left; vm_compute; reflexivity|].
  rewrite Hclose; [exact Hw|discriminate].
Defined.

Lemma depth_input_is_clamped_witness :
  (1 <= 7 <= 20)
  /\ depth (settings (onDepthChange (Some 7) initialState)) = 7.
Proof.
  split; [lia|].
  destruct (depth_input_is_clamped (Some 7) initialState) as [_ [H _]].
  apply (H 7 eq_refl). lia.
Defined.

Lemma min_delay_write_ignores_maximum_witness :
  (maxDelay (settings initialState) < 3000 + 100)
  /\ ~ delays_ok (settings (onMinDelayChange (Some 3000) initialState)).
Proof.
  split; [simpl; lia|].
  destruct (min_delay_write_ignores_maximum (Some 3000) initialState)
    as [_ [_ [_ [_ [_ H]]]]].
  apply (H 3000 eq_refl); simpl; lia.
Defined.

(** ** Engine lines and the skill level *)

Lemma onEngineMessage_keeps (message : string) (now rnd : Z) (st : State) :
  engineInbox (onEngineMessage message now rnd st) = engineInbox st
  /\ socketOutbox (onEngineMessage message now rnd st) = socketOutbox st
  /\ currentFen (onEngineMessage message now rnd st) = currentFen st
  /\ lastCalculatedFen (onEngineMessage message now rnd st)
     = lastCalculatedFen st
  /\ isEngineReady (onEngineMessage message now rnd st) = isEngineReady st
  /\ webSocketWrapper (onEngineMessage message now rnd st)
     = webSocketWrapper st
  /\ settings (onEngineMessage message now rnd st) = settings st.
Proof.
  unfold onEngineMessage, sendMoveWithDelay. handler_cases.
  all: repeat split; reflexivity.
Qed.

(** X21: an engine line never posts to the engine and never writes to
    the socket: it leaves the engine's inbox, the socket's outbox, the
    tracked position, the last-submitted marker and the settings as they
    are (a dispatch is only ever armed as a timer), and a line without
    "bestmove" changes nothing at all. *)
Theorem engine_line_posts_and_sends_nothing
  (message : string) (now rnd : Z) (st : State) :
  let st' := onEngineMessage message now rnd st in
  engineInbox st' = engineInbox st
  /\ socketOutbox st' = socketOutbox st
  /\ currentFen st' = currentFen st
  /\ lastCalculatedFen st' = lastCalculatedFen st
  /\ settings st' = settings st
  /\ (includes "bestmove" message = false -> st' = st).
Proof.
  cbv zeta.
  destruct (onEngineMessage_keeps message now rnd st)
    as [H1 [H2 [H3 [H4 [_ [_ H7]]]]]].
  repeat (split; [assumption|]).
  intros Hinc. unfold onEngineMessage. rewrite Hinc. reflexivity.
Qed.



(** X23: a skill level chosen on the slider is stored in every case;
    with the engine ready it is posted at once as a [setoption] command
    and nothing else is posted; chosen before the engine is up it is
    posted with the handshake of the initialisation, as its second
    command. *)
Theorem skill_level_reaches_engine (value : Z) (st : State) :
  skillLevel (settings (onSkillInput value st)) = value
  /\ (isEngineReady st = true ->
      engineInbox (onSkillInput value st)
      = (engineInbox st
         ++ [ ("setoption name Skill Level value "
               ++ string_of_Z value)%string ])%list)
  /\ (isEngineReady st = false ->
      engineInbox (onSkillInput value st) = engineInbox st
      /\ engineInbox (initializeChessEngine Loaded (onSkillInput value st))
         = (engineInbox st
            ++ [ "uci";
                 ("setoption name Skill Level value "
                  ++ string_of_Z value)%string;
                 "setoption name Hash value 16";
                 "setoption name Threads value 1";
                 "ucinewgame" ])%list).
Proof.
  unfold onSkillInput.
  cbn [isEngineReady set_settings settings skillLevel set_skillLevel].
  split; [destruct (isEngineReady st); reflexivity|]. split.
  - intros Hr. rewrite Hr. reflexivity.
  - intros Hr. rewrite Hr. split; [reflexivity|].
    unfold initializeChessEngine.
    cbn -[string_of_Z]. rewrite <- !app_assoc. reflexivity.
Qed.

Lemma skill_level_reaches_engine_witness :
  isEngineReady initialState = false
  /\ nth_error
       (engineInbox (initializeChessEngine Loaded (onSkillInput 3 initialState)))
       1
     = Some "setoption name Skill Level value 3".
Proof.
  split; [reflexivity|].
  destruct (skill_level_reaches_engine 3 initialState) as [_ [_ H]].
  destruct (H eq_refl) as [_ Hin]. rewrite Hin. reflexivity.
Defined.

(** ** Keyboard shortcuts *)



(** ** The history is write-only *)

Ltac open_cases :=
  repeat (cbn -[string_of_Z includes split String.append String.eqb
                String.length Nat.ltb Z.eqb Z.max Z.min floor_random_times
                push_history computeDelay toLowerCase remove_nth nth_error
                List.length app or_default trackedFen];
          match goal with
          | |- context [match ?x with _ => _ end] => destruct x eqn:?
          end);
  cbn -[string_of_Z includes split String.append String.eqb
        String.length Nat.ltb Z.eqb Z.max Z.min floor_random_times
        push_history computeDelay toLowerCase remove_nth nth_error
        List.length app or_default trackedFen].

Lemma forget_history_core (ev : Event) (st st' : State) :
  forget_history st = forget_history st' ->
  forget_history (handle ev st) = forget_history (handle ev st').
Proof.
  intros H. destruct st, st'. unfold forget_history in H. cbn in H.
  injection H as -> -> -> -> -> -> -> -> -> -> -> -> -> ->.
  unfold forget_history.
  destruct ev;
    unfold_handlers; unfold calculateMove, sendMove, sendMoveWithDelay;
    open_cases; reflexivity.
Qed.

Lemma forget_history_step (ev : PageEvent) (st st' : State) :
  forget_history st = forget_history st' ->
  forget_history (handlePage ev st) = forget_history (handlePage ev st').
Proof.
  intros H. destruct ev as [ev| | | |altKey key rnd| |].
  - apply forget_history_core, H.
  - destruct st, st'. unfold forget_history in *. cbn in H.
    injection H as -> -> -> -> -> -> -> -> -> -> -> -> -> ->. reflexivity.
  - destruct st, st'. unfold forget_history in *. cbn in H.
    injection H as -> -> -> -> -> -> -> -> -> -> -> -> -> ->.
    unfold handlePage, onSkillInput. open_cases; reflexivity.
  - destruct st, st'. unfold forget_history in *. cbn in H.
    injection H as -> -> -> -> -> -> -> -> -> -> -> -> -> ->. reflexivity.
  - cbn [handlePage]. unfold onKeyDown.
    assert (H1 : forget_history
                   (if (altKey && String.eqb (toLowerCase key) "m")%bool
                    then onPlayClick rnd st else st)
                 = forget_history
                     (if (altKey && String.eqb (toLowerCase key) "m")%bool
                      then onPlayClick rnd st' else st')).
    { destruct (altKey && String.eqb (toLowerCase key) "m")%bool;
        [apply (forget_history_core (EvPlayClick rnd)), H|exact H]. }
    revert H1.
    generalize (if (altKey && String.eqb (toLowerCase key) "m")%bool
                then onPlayClick rnd st else st).
    generalize (if (altKey && String.eqb (toLowerCase key) "m")%bool
                then onPlayClick rnd st' else st').
    intros s1' s1 H1.
    assert (H2 : forget_history
                   (if (altKey && String.eqb (toLowerCase key) "a")%bool
                    then onToggleAutoMove s1 else s1)
                 = forget_history
                     (if (altKey && String.eqb (toLowerCase key) "a")%bool
                      then onToggleAutoMove s1' else s1')).
    { destruct (altKey && String.eqb (toLowerCase key) "a")%bool;
        [apply (forget_history_core EvToggleAutoMove), H1|exact H1]. }
    revert H2.
    generalize (if (altKey && String.eqb (toLowerCase key) "a")%bool
                then onToggleAutoMove s1 else s1).
    generalize (if (altKey && String.eqb (toLowerCase key) "a")%bool
                then onToggleAutoMove s1' else s1').
    intros s2' s2 H2.
    assert (H3 : forget_history
                   (if (altKey && String.eqb (toLowerCase key) "c")%bool
                    then onRecalcClick s2 else s2)
                 = forget_history
                     (if (altKey && String.eqb (toLowerCase key) "c")%bool
                      then onRecalcClick s2' else s2')).
    { destruct (altKey && String.eqb (toLowerCase key) "c")%bool;
        [apply (forget_history_core EvRecalcClick), H2|exact H2]. }
    revert H3.
    generalize (if (altKey && String.eqb (toLowerCase key) "c")%bool
                then onRecalcClick s2 else s2).
    generalize (if (altKey && String.eqb (toLowerCase key) "c")%bool
                then onRecalcClick s2' else s2').
    intros s3' s3 H3.
    destruct (altKey && String.eqb (toLowerCase key) "h")%bool;
      [|exact H3].
    destruct s3, s3'. unfold forget_history in *. cbn in H3.
    injection H3 as -> -> -> -> -> -> -> -> -> -> -> -> -> ->.
    unfold onTogglePanel. open_cases; reflexivity.
  - destruct st, st'. unfold forget_history in *. cbn in H.
    injection H as -> -> -> -> -> -> -> -> -> -> -> -> -> ->.
    unfold handlePage, constructSocket, onSocketConstructed.
    open_cases; reflexivity.
  - destruct st, st'. unfold forget_history in *. cbn in H.
    injection H as -> -> -> -> -> -> -> -> -> -> -> -> -> ->.
    unfold handlePage, onCreateUI. open_cases; reflexivity.
Qed.

(** X25: the move history is never read back: two states that differ
    only in their history go through any sequence of events in
    lockstep, posting, sending, scheduling and storing the same
    things. *)
Theorem history_is_never_consulted
  (evs : list PageEvent) (h : list HistoryEntry) (st : State) :
  forget_history (runPage evs (set_moveHistory h st))
  = forget_history (runPage evs st).
Proof.
  assert (Hgen : forall st1 st2,
             forget_history st1 = forget_history st2 ->
             forget_history (runPage evs st1) = forget_history (runPage evs st2)).
  { induction evs as [|ev evs IH]; intros st1 st2 H; [exact H|].
    cbn [runPage]. apply IH, forget_history_step, H. }
  apply Hgen. reflexivity.
Qed.

(** ** Instances *)

Lemma sendMove_succeeds_iff_witness :
  socket_usable readyState0
  /\ (4 <= String.length "e2e4")%nat
  /\ snd (sendMove "e2e4" readyState0) = true.
Proof.
  assert (Hs : socket_usable readyState0).
  { exists {| sockId := 0; readyState := 1; sendThrows := false |}.
    repeat split; vm_compute; reflexivity. }
  split; [exact Hs|]. split; [simpl; lia|].
  destruct (sendMove_succeeds_iff "e2e4" readyState0) as [[_ H] _].
  apply H. split; [exact Hs|simpl; lia].
Defined.

Lemma engine_line_posts_and_sends_nothing_witness :
  includes "bestmove" "info depth 3 score cp 20" = false
  /\ onEngineMessage "info depth 3 score cp 20" 0 0 readyState0 = readyState0.
Proof.
  split; [reflexivity|].
  destruct (engine_line_posts_and_sends_nothing
              "info depth 3 score cp 20" 0 0 readyState0)
    as [_ [_ [_ [_ [_ H]]]]].
  apply H. reflexivity.
Defined.

(** ** Fields by the code and fields by whitespace *)

Lemma is_space_whitespace (c : ascii) :
  is_space c = true -> is_whitespace c = true.
Proof.
  unfold is_space. intros H. apply Ascii.eqb_eq in H. subst c. reflexivity.
Qed.

Lemma ws_fields_split_head (s : string) :
  forall h t,
    split s = h :: t ->
    no_whitespace h = true ->
    forallb proper_field t = true ->
    ws_fields s = if String.eqb h "" then t else h :: t.
Proof.
  induction s as [|c r IH]; intros h t Hs Hh Ht.
  - cbn in Hs. injection Hs as <- <-. reflexivity.
  - cbn [split] in Hs. destruct (is_space c) eqn:Hc.
    + (* a space: the field before it is empty, the rest follows *)
      injection Hs as <- Hr. cbn [String.eqb ws_fields].
      rewrite (is_space_whitespace c Hc).
      pose proof (split_nonempty r) as Hne.
      destruct (split r) as [|h' t'] eqn:Hsr; [congruence|]. subst t.
      cbn [forallb] in Ht. apply andb_true_iff in Ht as [Hp Ht'].
      unfold proper_field in Hp. apply andb_true_iff in Hp as [Hp1 Hp2].
      rewrite (IH h' t' eq_refl Hp2 Ht').
      apply negb_true_iff in Hp1. rewrite Hp1. reflexivity.
    + (* a character of the first field *)
      pose proof (split_nonempty r) as Hne.
      destruct (split r) as [|h' t'] eqn:Hsr; [congruence|].
      injection Hs as <- <-.
      cbn [no_whitespace] in Hh. apply andb_true_iff in Hh as [Hcw Hh'].
      apply negb_true_iff in Hcw.
      pose proof (IH h' t' eq_refl Hh' Ht) as Hrec.
      cbn [String.eqb]. cbn [ws_fields]. rewrite Hcw.
      destruct r as [|c' r'].
      * cbn in Hsr. injection Hsr as <- <-. reflexivity.
      * destruct (is_whitespace c') eqn:Hcw'.
        -- (* only a space can follow: the first field ends here *)
           cbn [split] in Hsr. destruct (is_space c') eqn:Hc'.
           ++ injection Hsr as <- <-. rewrite Hrec. reflexivity.
           ++ exfalso. destruct (split r') as [|h2 t2]; injection Hsr as <- <-;
                cbn [no_whitespace] in Hh'; rewrite Hcw' in Hh';
                discriminate Hh'.
        -- cbn [split] in Hsr. destruct (is_space c') eqn:Hc'.
           ++ rewrite (is_space_whitespace c' Hc') in Hcw'. discriminate.
           ++ assert (Hne' : String.eqb h' "" = false).
              { destruct (split r') as [|h2 t2]; injection Hsr as <- <-;
                  reflexivity. }
              rewrite Hne' in Hrec. rewrite Hrec. reflexivity.
Qed.

(** Where the fields are separated by single spaces, each one not empty
    and free of other whitespace, the code counts the fields the
    specification means. *)
Lemma ws_fields_single_spaces (s : string) :
  forallb proper_field (fields s) = true -> ws_fields s = fields s.
Proof.
  unfold fields. intros H.
  pose proof (split_nonempty s) as Hne.
  destruct (split s) as [|h t] eqn:Hs; [congruence|].
  cbn [forallb] in H. apply andb_true_iff in H as [Hp Ht].
  unfold proper_field in Hp. apply andb_true_iff in Hp as [Hp1 Hp2].
  rewrite (ws_fields_split_head s h t Hs Hp2 Ht).
  apply negb_true_iff in Hp1. rewrite Hp1. reflexivity.
Qed.

Example rounded_product_delay :
  computeDelay (settings (onToggleHumanTiming initialState)) 708566341372958
  = 618.
Proof. vm_compute. reflexivity. Qed.
